(** * Instrument drivers of pymeasure: Toptica DLC Pro, Agiltron optical
      switch, Siglent SDG1032X

    A shallow embedding of the three drivers and the proofs of their
    properties.  Methods that talk to a device are functions from the
    object's state to the new state and either an exception or a value; an
    exception never rolls the state back, as in Python.  Every call made to
    a collaborator (the SDK client, the adapter) is appended to a call log
    kept in the object, the way a test double records its calls. *)

From Stdlib Require Import List String Ascii Bool Arith ZArith QArith Lia.
From Stdlib Require Import Sorted Permutation Strings.Byte DecimalString.
Import ListNotations.

Close Scope Q_scope.
Open Scope string_scope.
Open Scope list_scope.

Set Implicit Arguments.

(** ** Python values, exceptions and containers *)

Module Py.

(** The exceptions the drivers raise or see.  Everything here derives from
    [Exception].  [DecopError] is the SDK's device-level error (the class the
    driver stores in [_decop_error]); [TransportError] stands for a
    connection-level failure raised by the SDK or the adapter (a time-out, a
    closed socket); [OtherException] is any other [Exception]. *)
Inductive exn : Type :=
| DecopError (msg : string)
| TransportError (msg : string)
| OtherException (msg : string)
| ValueError (msg : string)
| ConnectionError (msg : string)
| TypeError (msg : string)
| IndexError (msg : string)
| AttributeError (msg : string)
| UnboundLocalError (msg : string).

(** [str(e)] *)
Definition exn_str (e : exn) : string :=
  match e with
  | DecopError m | TransportError m | OtherException m | ValueError m
  | ConnectionError m | TypeError m | IndexError m | AttributeError m
  | UnboundLocalError m => m
  end.

(** [isinstance(e, DecopError)] *)
Definition is_decop (e : exn) : bool :=
  match e with DecopError _ => true | _ => false end.

Definition result (A : Type) : Type := (exn + A)%type.

(** Values a device parameter can hold.  A float is modelled by the rational
    it denotes (no NaN, no infinity). *)
Inductive value : Type :=
| VNum (q : Q)
| VBool (b : bool)
| VStr (s : string).

(** A computation on an object of type [S]. *)
Definition M (S A : Type) : Type := S -> S * result A.

Definition ret {S A} (a : A) : M S A := fun s => (s, inr a).
Definition raise {S A} (e : exn) : M S A := fun s => (s, inl e).
Definition bind {S A B} (m : M S A) (k : A -> M S B) : M S B :=
  fun s => match m s with
           | (s', inr a) => k a s'
           | (s', inl e) => (s', inl e)
           end.
(** [try: m except Exception as e: h e] *)
Definition try_except {S A} (m : M S A) (h : exn -> M S A) : M S A :=
  fun s => match m s with
           | (s', inr a) => (s', inr a)
           | (s', inl e) => h e s'
           end.

(** *** Strings *)

(** [s[n:]] *)
Fixpoint slice_from (n : nat) (s : string) : string :=
  match n, s with
  | O, _ => s
  | S _, EmptyString => EmptyString
  | S n', String _ r => slice_from n' r
  end.

(** [s.split(sep)] for a one-character separator. *)
Fixpoint split (sep : ascii) (s : string) : list string :=
  match s with
  | EmptyString => [EmptyString]
  | String c r =>
      if Ascii.eqb c sep then EmptyString :: split sep r
      else match split sep r with
           | [] => [String c EmptyString]
           | h :: t => String c h :: t
           end
  end.

(** [sep.join(l)] *)
Fixpoint join (sep : string) (l : list string) : string :=
  match l with
  | [] => EmptyString
  | [x] => x
  | x :: r => (x ++ sep ++ join sep r)%string
  end.

(** [c.isspace()] on the ASCII range. *)
Definition is_space (c : ascii) : bool :=
  let n := nat_of_ascii c in
  (((9 <=? n) && (n <=? 13)) || ((28 <=? n) && (n <=? 32)))%nat.

(** [s.split()]: the maximal runs of non-blank characters. *)
Fixpoint split_ws (s : string) : list string :=
  match s with
  | EmptyString => []
  | String c r =>
      if is_space c then split_ws r
      else match r with
           | EmptyString => [String c EmptyString]
           | String c' _ =>
               if is_space c' then String c EmptyString :: split_ws r
               else match split_ws r with
                    | [] => [String c EmptyString]
                    | h :: t => String c h :: t
                    end
           end
  end.

(** [sub in s] *)
Fixpoint contains (sub s : string) : bool :=
  String.prefix sub s ||
  match s with
  | EmptyString => false
  | String _ r => contains sub r
  end.

(** [l[i]] for [i >= 0] *)
Definition index {A} (l : list A) (i : nat) : result A :=
  match nth_error l i with
  | Some x => inr x
  | None => inl (IndexError "list index out of range")
  end.

(** [l[-1]] *)
Definition index_last {A} (l : list A) : result A :=
  match l with
  | [] => inl (IndexError "list index out of range")
  | _ => index l (List.length l - 1)
  end.

(** [enumerate(l)] *)
Definition enumerate {A} (l : list A) : list (nat * A) :=
  combine (seq 0 (List.length l)) l.

(** *** Dictionaries: insertion-ordered, a key assigned again keeps its
    place and takes the new value. *)
Definition dict (V : Type) : Type := list (string * V).

Fixpoint dict_set {V} (k : string) (v : V) (d : dict V) : dict V :=
  match d with
  | [] => [(k, v)]
  | (k', v') :: r =>
      if String.eqb k' k then (k', v) :: r else (k', v') :: dict_set k v r
  end.

Fixpoint dict_get {V} (k : string) (d : dict V) : option V :=
  match d with
  | [] => None
  | (k', v') :: r => if String.eqb k' k then Some v' else dict_get k r
  end.

Definition keys {V} (d : dict V) : list string := map fst d.

End Py.
Import Py.

Notation "x <- m ;; k" := (bind m (fun x => k))
  (at level 100, m at next level, right associativity).
Notation "m ;;; k" := (bind m (fun _ => k))
  (at level 100, right associativity).

(** ** The adapter of a message-based instrument

    What the drivers use of pymeasure's adapter: [write], [write_raw] and
    [read].  Each may raise. *)

Class Adapter (A : Type) : Type := {
  adapter_write : A -> string -> A * result unit;
  adapter_write_raw : A -> list byte -> A * result unit;
  adapter_read : A -> A * result string
}.

(** What reached the adapter. *)
Inductive wire_event : Type :=
| WriteText (cmd : string)
| WriteRaw (msg : list byte)
| Read.

(** ** Siglent SDG1032X *)

Module SDG1032X.

(** [get_process_list] of [output_enabled]:
    [v[0].split()[-1] == "ON" if len(v) > 0 else False] *)
Definition output_enabled_get_process_list (v : list string) : result bool :=
  if (0 <? List.length v)%nat then
    match index v 0 with
    | inl e => inl e
    | inr v0 =>
        match index_last (split_ws v0) with
        | inl e => inl e
        | inr w => inr (String.eqb w "ON")
        end
    end
  else inr false.

(** [get_process_list] of [output_polarity]:
    [v[6] if len(v) > 6 else "NOR"] *)
Definition output_polarity_get_process_list (v : list string) : result string :=
  if (6 <? List.length v)%nat then index v 6 else inr "NOR".

(** [get_process_list] of [output_load]: [v[2] if len(v) > 2 else "HZ"] *)
Definition output_load_get_process_list (v : list string) : result string :=
  if (2 <? List.length v)%nat then index v 2 else inr "HZ".

(** [get_process_list] of [noise_addition_enabled]:
    [v[1] == "ON" if len(v) > 1 else False] *)
Definition noise_addition_enabled_get_process_list (v : list string) : result bool :=
  if (1 <? List.length v)%nat then
    match index v 1 with
    | inl e => inl e
    | inr w => inr (String.eqb w "ON")
    end
  else inr false.

(** The loop of [get_waveform_settings]:
    [for i, key in enumerate(settings_str):
       if (i % 2) == 0: settings[key] = settings_str[i + 1]] *)
Fixpoint settings_loop (settings_str : list string) (items : list (nat * string))
         (settings : dict string) : result (dict string) :=
  match items with
  | [] => inr settings
  | (i, key) :: rest =>
      if (i mod 2 =? 0)%nat then
        match index settings_str (i + 1) with
        | inl e => inl e
        | inr v => settings_loop settings_str rest (dict_set key v settings)
        end
      else settings_loop settings_str rest settings
  end.

(** The body of [get_waveform_settings] after the query:
    [settings_str = response[8:].split(',')], then the loop. *)
Definition waveform_settings_of_response (response : string) : result (dict string) :=
  let settings_str := split "," (slice_from 8 response) in
  settings_loop settings_str (enumerate settings_str) [].

Section Channel.
Context {A : Type} `{Adapter A}.

(** A channel shares its parent's adapter; [log] records what the channel
    handed to it. *)
Record SDG1032XChannel : Type := {
  id : string;
  adapter : A;
  log : list wire_event
}.

(** [Channel.ask(command)]: the channel id is put in place of [{ch}], the
    command is written and the reply read. *)
Definition ask (node : string) (tail : string) : M SDG1032XChannel string :=
  fun self =>
    let cmd := (node ++ id self ++ tail)%string in
    let (a1, w) := adapter_write (adapter self) cmd in
    let self1 := {| id := id self; adapter := a1; log := log self ++ [WriteText cmd] |} in
    match w with
    | inl e => (self1, inl e)
    | inr _ =>
        let (a2, r) := adapter_read a1 in
        ({| id := id self; adapter := a2; log := log self1 ++ [Read] |}, r)
    end.

(** [get_waveform_settings]: [response = self.ask(":BSWV{ch}?")], then the
    parse. *)
Definition get_waveform_settings : M SDG1032XChannel (dict string) :=
  response <- ask ":BSWV" "?" ;;
  fun self => (self, waveform_settings_of_response response).
End Channel.

End SDG1032X.

(** ** Agiltron optical switch *)

Module Agiltron.

Definition SWITCH_TYPES : list string := ["1x2"; "1x8"].

(** [range(start, stop)] *)
Definition range : Type := (Z * Z)%type.

(** [value in r] *)
Definition in_range (value : Z) (r : range) : bool :=
  ((fst r <=? value) && (value <? snd r))%Z.

(** [list(r)] *)
Definition list_of_range (r : range) : list Z :=
  map (fun n => (fst r + Z.of_nat n)%Z) (seq 0 (Z.to_nat (snd r - fst r))).

(** [str(n)] for an integer *)
Definition str_int (n : Z) : string := NilZero.string_of_int (Z.to_int n).

(** [str(l)] for a list of integers *)
Definition str_int_list (l : list Z) : string :=
  ("[" ++ join ", " (map str_int l) ++ "]")%string.

Section Switch.
Context {A : Type} `{Adapter A}.

Record AgiltronOpticalSwitch : Type := {
  adapter : A;
  log : list wire_event;
  switch_type : string;
  _channel_range : range;
  _current_channel : option Z;
  _product_name : option string;
  _serial_number : option string
}.

Definition set_adapter (a : A) (ev : list wire_event) (self : AgiltronOpticalSwitch) :=
  {| adapter := a; log := log self ++ ev; switch_type := switch_type self;
     _channel_range := _channel_range self;
     _current_channel := _current_channel self;
     _product_name := _product_name self;
     _serial_number := _serial_number self |}.

Definition set_current_channel (v : Z) (self : AgiltronOpticalSwitch) :=
  {| adapter := adapter self; log := log self; switch_type := switch_type self;
     _channel_range := _channel_range self;
     _current_channel := Some v;
     _product_name := _product_name self;
     _serial_number := _serial_number self |}.

Definition set_id (pn sn : string) (self : AgiltronOpticalSwitch) :=
  {| adapter := adapter self; log := log self; switch_type := switch_type self;
     _channel_range := _channel_range self;
     _current_channel := _current_channel self;
     _product_name := Some pn;
     _serial_number := Some sn |}.

(** [self.write(cmd)] *)
Definition write (cmd : string) : M AgiltronOpticalSwitch unit :=
  fun self =>
    let (a, r) := adapter_write (adapter self) cmd in
    (set_adapter a [WriteText cmd] self, r).

(** [self.adapter.write_raw(msg)] *)
Definition write_raw (msg : list byte) : M AgiltronOpticalSwitch unit :=
  fun self =>
    let (a, r) := adapter_write_raw (adapter self) msg in
    (set_adapter a [WriteRaw msg] self, r).

(** [self.read()] *)
Definition read : M AgiltronOpticalSwitch string :=
  fun self =>
    let (a, r) := adapter_read (adapter self) in
    (set_adapter a [Read] self, r).

(** [self.ask(cmd)] *)
Definition ask (cmd : string) : M AgiltronOpticalSwitch string :=
  write cmd ;;; read.

Definition _get_id : M AgiltronOpticalSwitch unit :=
  try_except
    (pn <- ask "*PN" ;;
     sn <- ask "*SN" ;;
     fun self => (set_id pn sn self, inr tt))
    (fun _ self => (set_id "Unknown" "Unknown" self, inr tt)).

(** [__init__]: the type is checked after the base class has stored the
    adapter; a 1x8 switch is asked for its identity. *)
Definition init (adapter0 : A) (switch_type0 : string)
  : AgiltronOpticalSwitch * result unit :=
  let self0 :=
    {| adapter := adapter0; log := []; switch_type := switch_type0;
       _channel_range := (0, 0)%Z; _current_channel := None;
       _product_name := None; _serial_number := None |} in
  if negb (existsb (String.eqb switch_type0) SWITCH_TYPES) then
    (self0, inl (ValueError ("Invalid switch type: " ++ switch_type0
                             ++ ". Must be one of ['1x2', '1x8']")%string))
  else
    let self1 :=
      {| adapter := adapter0; log := []; switch_type := switch_type0;
         _channel_range := if String.eqb switch_type0 "1x8" then (1, 9)%Z else (1, 3)%Z;
         _current_channel := None;
         _product_name := None; _serial_number := None |} in
    if String.eqb switch_type0 "1x8" then _get_id self1 else (self1, inr tt).

(** The getter of [channel]: [getattr(self, '_current_channel', 1)] on
    both branches. *)
Definition channel (self : AgiltronOpticalSwitch) : Z :=
  match _current_channel self with Some v => v | None => 1%Z end.

(** The setter of [channel]. *)
Definition channel_set (value : Z) : M AgiltronOpticalSwitch unit :=
  fun self =>
    if negb (in_range value (_channel_range self)) then
      (self, inl (ValueError ("Channel " ++ str_int value ++ " is not valid for "
                              ++ switch_type self ++ " switch. Valid channels: "
                              ++ str_int_list (list_of_range (_channel_range self)))%string))
    else if String.eqb (switch_type self) "1x8" then
      (write ("*SW00" ++ str_int value)%string ;;;
       fun self' => (set_current_channel value self', inr tt)) self
    else if String.eqb (switch_type self) "1x2" then
      match (if (value =? 1)%Z then Some [x01; x12; x00; x01]%byte
             else if (value =? 2)%Z then Some [x01; x12; x00; x02]%byte
             else None) with
      | None => (self, inl (UnboundLocalError "msg"))
      | Some msg =>
          (write_raw msg ;;;
           fun self' => (set_current_channel value self', inr tt)) self
      end
    else (self, inr tt).


Definition get_available_channels (self : AgiltronOpticalSwitch) : list Z :=
  list_of_range (_channel_range self).

(** The getter of [id]: what a 1x8 switch answered when it was built, a
    fixed description for a 1x2 switch. *)
Definition id (self : AgiltronOpticalSwitch) : dict string :=
  if String.eqb (switch_type self) "1x8" then
    [ ("product", match _product_name self with Some n => n | None => "Unknown" end);
      ("serial", match _serial_number self with Some n => n | None => "Unknown" end) ]
  else
    [ ("product", "Agiltron 1x2 Switch"); ("serial", "Unknown") ].

End Switch.

End Agiltron.

(** ** Toptica DLC Pro *)

(** The SDK session the driver talks to: [Client.open], [Client.get],
    [Client.set], [Client.close].  The client has its own state, so a reply
    may depend on the calls made before. *)
Class Session (C : Type) : Type := {
  sdk_open : C -> C * result unit;
  sdk_get : C -> string -> C * result value;
  sdk_set : C -> string -> value -> C * result unit;
  sdk_close : C -> C * result unit
}.

(** What the driver takes from the interpreter: [str] of a number and the
    reading of the clock, [datetime.datetime.now().isoformat()]. *)
Class Host : Type := {
  str_num : Q -> string;
  now_isoformat : string
}.

Module Toptica.

(** A call made to the SDK client, with what it gave back. *)
Inductive call : Type :=
| COpen (r : result unit)
| CGet (p : string) (r : result value)
| CSet (p : string) (v : value) (r : result unit)
| CClose (r : result unit).

Definition is_set_call (c : call) : bool :=
  match c with CSet _ _ _ => true | _ => false end.

(** The calls that write to the device. *)
Definition writes (l : list call) : list call := filter is_set_call l.

(** The parameters read, in order, and among them those whose read
    returned. *)
Definition probed (l : list call) : list string :=
  flat_map (fun c => match c with CGet p _ => [p] | _ => [] end) l.

Definition accepted (l : list call) : list string :=
  flat_map (fun c => match c with CGet p (inr _) => [p] | _ => [] end) l.

(** The type [_open_connection] detects from the reply to ["laser1:type"]. *)
Definition detect (laser_type : string) : string :=
  if String.eqb laser_type "CTL" then "CTL"
  else if contains "BoosTApro" laser_type then "TA"
  else "Unknown".

(** The number a value compares as; a [bool] is an [int]. *)
Definition num_of (v : value) : option Q :=
  match v with
  | VNum q => Some q
  | VBool b => Some (if b then 1%Q else 0%Q)
  | VStr _ => None
  end.

Definition Qltb (x y : Q) : bool := negb (Qle_bool y x).

(** [x < y]: numbers with numbers, strings with strings, a [TypeError]
    otherwise. *)
Definition py_lt (x y : value) : result bool :=
  match x, y with
  | VStr a, VStr b => inr (String.ltb a b)
  | _, _ =>
      match num_of x, num_of y with
      | Some a, Some b => inr (Qltb a b)
      | _, _ => inl (TypeError "'<' not supported between instances")
      end
  end.

(** [x < lo or x > hi] *)
Definition outside (x lo hi : value) : result bool :=
  match py_lt x lo with
  | inl e => inl e
  | inr true => inr true
  | inr false => py_lt hi x
  end.

(** [sorted(l)] on strings: a stable insertion sort by code points. *)
Fixpoint insert_sorted (x : string) (l : list string) : list string :=
  match l with
  | [] => [x]
  | y :: r => if String.leb x y then x :: l else y :: insert_sorted x r
  end.

Definition sorted (l : list string) : list string :=
  fold_right insert_sorted [] l.

(** [list(set(l))]: the distinct elements of [l]; a set iterates in an
    order of its own, which [sorted] then replaces. *)
Definition list_set (l : list string) : list string :=
  nodup string_dec l.

Record metadata : Type := {
  meta_laser_type : option string;
  meta_ip_address : string;
  timestamp : string;
  instrument_name : string;
  parameter_count : nat;
  discovery_method : string
}.

(** What [get_all_parameters] stores under a key. *)
Inductive entry : Type :=
| EValue (v : value)
| EMeta (m : metadata).

Section Driver.
Context {C : Type} `{Session C} `{Host}.

Record TopticaDLCPro : Type := {
  ip_address : string;
  client : option C;
  laser_type : option string;
  name : string;
  calls : list call
}.

(** [Instrument.shutdown] of the base class, reached as
    [super().shutdown()]. *)
Class InstrumentBase : Type := {
  super_shutdown : M TopticaDLCPro unit
}.
Context `{InstrumentBase}.

Definition set_client (c : option C) (ev : list call) (self : TopticaDLCPro) :=
  {| ip_address := ip_address self; client := c; laser_type := laser_type self;
     name := name self; calls := calls self ++ ev |}.

Definition set_laser_type (t : string) (self : TopticaDLCPro) :=
  {| ip_address := ip_address self; client := client self; laser_type := Some t;
     name := name self; calls := calls self |}.

Definition set_name (n : string) (self : TopticaDLCPro) :=
  {| ip_address := ip_address self; client := client self;
     laser_type := laser_type self; name := n; calls := calls self |}.

(** [str(v)] *)
Definition py_str (v : value) : string :=
  match v with
  | VNum q => str_num q
  | VBool true => "True"
  | VBool false => "False"
  | VStr s => s
  end.

(** [self.client.get(p)] *)
Definition client_get (p : string) : M TopticaDLCPro value :=
  fun self =>
    match client self with
    | None => (self, inl (AttributeError "'NoneType' object has no attribute 'get'"))
    | Some c => let (c', r) := sdk_get c p in (set_client (Some c') [CGet p r] self, r)
    end.

(** [self.client.set(p, v)] *)
Definition client_set (p : string) (v : value) : M TopticaDLCPro unit :=
  fun self =>
    match client self with
    | None => (self, inl (AttributeError "'NoneType' object has no attribute 'set'"))
    | Some c => let (c', r) := sdk_set c p v in (set_client (Some c') [CSet p v r] self, r)
    end.

(** [_open_connection]; [conn] is the client built on the connection. *)
Definition _open_connection (conn : C) : M TopticaDLCPro unit :=
  try_except
    ((fun self =>
        let (c', r) := sdk_open conn in (set_client (Some c') [COpen r] self, r)) ;;;
     t <- client_get "laser1:type" ;;
     match t with
     | VStr s => fun self => (set_laser_type (detect s) self, inr tt)
     | _ => raise (TypeError "argument is not iterable")
     end)
    (fun e self =>
       (set_client None [] self,
        inl (ConnectionError ("Failed to connect to laser: " ++ exn_str e)%string))).

(** [__init__] *)
Definition init (ip : string) (name0 : option string) (conn : C)
  : TopticaDLCPro * result unit :=
  let self0 :=
    {| ip_address := ip; client := None; laser_type := None;
       name := match name0 with
               | None | Some EmptyString => "Toptica DLC Pro"
               | Some n => n
               end;
       calls := [] |} in
  (_open_connection conn ;;;
   fun self =>
     match name0 with
     | None =>
         (set_name ("Toptica DLC Pro "
                    ++ match laser_type self with Some t => t | None => "None" end)%string
                   self, inr tt)
     | Some _ => (self, inr tt)
     end) self0.

Definition _get_parameter (param_name : string) : M TopticaDLCPro value :=
  fun self =>
    match client self with
    | None => (self, inl (ConnectionError "Connection not open"))
    | Some _ =>
        try_except (client_get param_name)
          (fun e =>
             if is_decop e then
               raise (ValueError ("Error retrieving parameter " ++ param_name
                                  ++ ": " ++ exn_str e)%string)
             else raise e) self
    end.

Definition _set_parameter (param_name : string) (v : value) : M TopticaDLCPro unit :=
  fun self =>
    match client self with
    | None => (self, inl (ConnectionError "Connection not open"))
    | Some _ =>
        try_except (client_set param_name v)
          (fun e =>
             if is_decop e then
               raise (ValueError ("Error setting parameter " ++ param_name ++ " to "
                                  ++ py_str v ++ ": " ++ exn_str e)%string)
             else raise e) self
    end.

(** The guard every property of one laser type starts with. *)
Definition only_for (t : string) : M TopticaDLCPro unit :=
  fun self =>
    match laser_type self with
    | Some t' =>
        if String.eqb t' t then (self, inr tt)
        else (self, inl (ValueError ("This property is only available for "
                                     ++ t ++ " lasers")%string))
    | None => (self, inl (ValueError ("This property is only available for "
                                      ++ t ++ " lasers")%string))
    end.

(** A setter that reads its limits, compares and then writes. *)
Definition checked_set (lo hi : M TopticaDLCPro value)
           (msg : value -> value -> string) (target : string) (v : value)
  : M TopticaDLCPro unit :=
  l <- lo ;;
  h <- hi ;;
  match outside v l h with
  | inl e => raise e
  | inr true => raise (ValueError (msg l h))
  | inr false => _set_parameter target v
  end.

(** *** Properties common to all lasers *)
Definition emission : M TopticaDLCPro value := _get_parameter "emission".

Definition emission_set (v : value) : M TopticaDLCPro unit :=
  match v with
  | VBool _ => _set_parameter "emission" v
  | _ => raise (ValueError "Emission must be True or False")
  end.

(** *** CTL only *)
Definition wavelength : M TopticaDLCPro value :=
  only_for "CTL" ;;; _get_parameter "laser1:ctl:wavelength-set".

Definition wavelength_set (v : value) : M TopticaDLCPro unit :=
  only_for "CTL" ;;;
  checked_set (_get_parameter "laser1:ctl:wavelength-min")
              (_get_parameter "laser1:ctl:wavelength-max")
              (fun l h => ("Wavelength must be between " ++ py_str l ++ " nm and "
                           ++ py_str h ++ " nm")%string)
              "laser1:ctl:wavelength-set" v.

Definition wavelength_actual : M TopticaDLCPro value :=
  only_for "CTL" ;;; _get_parameter "laser1:ctl:wavelength-act".

Definition wavelength_limits : M TopticaDLCPro (value * value) :=
  only_for "CTL" ;;;
  l <- _get_parameter "laser1:ctl:wavelength-min" ;;
  h <- _get_parameter "laser1:ctl:wavelength-max" ;;
  ret (l, h).

Definition scan_offset : M TopticaDLCPro value :=
  only_for "CTL" ;;; _get_parameter "laser1:scan:offset".

Definition scan_offset_set (v : value) : M TopticaDLCPro unit :=
  only_for "CTL" ;;;
  checked_set (_get_parameter "laser1:dl:pc:voltage-min")
              (_get_parameter "laser1:dl:pc:voltage-max")
              (fun l h => ("Scan offset must be between " ++ py_str l ++ " and "
                           ++ py_str h)%string)
              "laser1:scan:offset" v.

Definition scan_offset_limits : M TopticaDLCPro (value * value) :=
  only_for "CTL" ;;;
  l <- _get_parameter "laser1:dl:pc:voltage-min" ;;
  h <- _get_parameter "laser1:dl:pc:voltage-max" ;;
  ret (l, h).

Definition ctl_current : M TopticaDLCPro value :=
  only_for "CTL" ;;; _get_parameter "laser1:dl:cc:current-set".

Definition ctl_current_set (v : value) : M TopticaDLCPro unit :=
  only_for "CTL" ;;;
  checked_set (ret (VNum 0)) (_get_parameter "laser1:dl:cc:current-clip")
              (fun _ h => ("Current must be between 0 and " ++ py_str h ++ " mA")%string)
              "laser1:dl:cc:current-set" v.

Definition ctl_current_actual : M TopticaDLCPro value :=
  only_for "CTL" ;;; _get_parameter "laser1:dl:cc:current-act".

(** *** TA only *)
Definition ta_current : M TopticaDLCPro value :=
  only_for "TA" ;;; _get_parameter "ampcc1:channel1:current-set".

Definition ta_current_set (v : value) : M TopticaDLCPro unit :=
  only_for "TA" ;;;
  checked_set (ret (VNum 0)) (_get_parameter "ampcc1:channel1:current-clip-limit")
              (fun _ h => ("Current must be between 0 and " ++ py_str h ++ " mA")%string)
              "ampcc1:channel1:current-set" v.

Definition ta_current_actual : M TopticaDLCPro value :=
  only_for "TA" ;;; _get_parameter "ampcc1:channel1:current-act".

Definition ta_current_limit : M TopticaDLCPro value :=
  only_for "TA" ;;; _get_parameter "ampcc1:channel1:current-clip-limit".

Definition ta_temperature : M TopticaDLCPro value :=
  only_for "TA" ;;; _get_parameter "laser1:amp:tc:temp-act".

Definition ta_temperature_setpoint : M TopticaDLCPro value :=
  only_for "TA" ;;; _get_parameter "laser1:amp:tc:temp-set".

Definition ta_temperature_setpoint_set (v : value) : M TopticaDLCPro unit :=
  only_for "TA" ;;;
  checked_set (_get_parameter "laser1:amp:tc:temp-set-min")
              (_get_parameter "laser1:amp:tc:temp-set-max")
              (fun l h => ("Temperature must be between " ++ py_str l ++ " and "
                           ++ py_str h ++ " °C")%string)
              "laser1:amp:tc:temp-set" v.

Definition ta_temperature_limits : M TopticaDLCPro (value * value) :=
  only_for "TA" ;;;
  l <- _get_parameter "laser1:amp:tc:temp-set-min" ;;
  h <- _get_parameter "laser1:amp:tc:temp-set-max" ;;
  ret (l, h).

(** *** Utility methods *)
Definition get_parameter (param_name : string) : M TopticaDLCPro value :=
  _get_parameter param_name.

Definition set_parameter (param_name : string) (v : value) : M TopticaDLCPro unit :=
  _set_parameter param_name v.

(** *** Parameter lists *)
Definition is_type (t : string) (self : TopticaDLCPro) : bool :=
  match laser_type self with Some t' => String.eqb t' t | None => false end.

Definition _get_default_parameter_list (self : TopticaDLCPro) : list string :=
  if is_type "CTL" self then
    [ "laser1:ctl:wavelength-set";
      "laser1:ctl:wavelength-act";
      "laser1:scan:offset";
      "laser1:ctl:wavelength-max";
      "laser1:ctl:wavelength-min";
      "laser1:dl:pc:voltage-max";
      "laser1:dl:pc:voltage-min";
      "laser1:dl:cc:current-set";
      "laser1:dl:cc:current-act";
      "laser1:dl:cc:current-clip";
      "laser1:type";
      "emission" ]
  else if is_type "TA" self then
    [ "ampcc1:channel1:current-set";
      "ampcc1:channel1:current-act";
      "laser1:amp:tc:temp-act";
      "laser1:amp:tc:temp-set";
      "laser1:amp:tc:temp-set-min";
      "laser1:amp:tc:temp-set-max";
      "ampcc1:channel1:current-clip-limit";
      "laser1:type";
      "emission" ]
  else [ "laser1:type"; "emission" ].

Definition _get_enhanced_parameter_list (self : TopticaDLCPro) : list string :=
  let base_params := _get_default_parameter_list self in
  let additional_params :=
    [ "system:uptime"; "system:serial-number"; "system:model";
      "fw:version"; "cc1:board-temp"; "tc1:board-temp" ]
    ++ (if is_type "CTL" self then
          [ "laser1:dl:tc:temp-act"; "laser1:dl:tc:temp-set";
            "laser1:ctl:mode"; "laser1:ctl:state" ]
        else if is_type "TA" self then
          [ "laser1:amp:photodiode"; "laser1:amp:state" ]
        else []) in
  let all_params := list_set (base_params ++ additional_params) in
  sorted all_params.

(** *** Discovery *)

(** The loop of [get_all_supported_parameters]: a read that returns adds
    the name, a read that raises (either handler) goes on to the next
    name. *)
Fixpoint probe (candidate_params : list string) (available_params : list string)
  : M TopticaDLCPro (list string) :=
  match candidate_params with
  | [] => ret available_params
  | param :: rest =>
      fun self =>
        match client_get param self with
        | (self', inr _) => probe rest (available_params ++ [param]) self'
        | (self', inl e) =>
            if is_decop e then probe rest available_params self'
            else probe rest available_params self'
        end
  end.

Definition get_all_supported_parameters : M TopticaDLCPro (list string) :=
  fun self =>
    match client self with
    | None => (self, inl (ConnectionError "Connection not open"))
    | Some _ =>
        try_except
          (candidate_params <- (fun s => (s, inr (_get_enhanced_parameter_list s))) ;;
           probe candidate_params [])
          (fun _ s => (s, inr (_get_default_parameter_list s))) self
    end.

(** The loop of [get_all_parameters]: only the SDK's own error is turned
    into an entry. *)
Fixpoint retrieve (param_names : list string) (parameters : dict entry)
  : M TopticaDLCPro (dict entry) :=
  match param_names with
  | [] => ret parameters
  | param :: rest =>
      fun self =>
        match client_get param self with
        | (self', inr v) => retrieve rest (dict_set param (EValue v) parameters) self'
        | (self', inl e) =>
            if is_decop e then
              retrieve rest
                (dict_set param (EValue (VStr ("ERROR: " ++ exn_str e)%string)) parameters)
                self'
            else (self', inl e)
        end
  end.

(** The list [get_all_parameters] goes through. *)
Definition parameter_names (use_dynamic_discovery : bool)
  : M TopticaDLCPro (list string) :=
  if use_dynamic_discovery then
    try_except get_all_supported_parameters
      (fun _ s => (s, inr (_get_default_parameter_list s)))
  else fun s => (s, inr (_get_default_parameter_list s)).

Definition get_all_parameters (use_dynamic_discovery : bool)
  : M TopticaDLCPro (dict entry) :=
  fun self =>
    match client self with
    | None => (self, inl (ConnectionError "Connection not open"))
    | Some _ =>
        (param_names <- parameter_names use_dynamic_discovery ;;
         parameters <- retrieve param_names [] ;;
         fun s =>
           (s, inr (dict_set "_metadata"
                      (EMeta {| meta_laser_type := laser_type s;
                                meta_ip_address := ip_address s;
                                timestamp := now_isoformat;
                                instrument_name := name s;
                                parameter_count := List.length param_names;
                                discovery_method :=
                                  if use_dynamic_discovery then "dynamic"
                                  else "predefined" |})
                      parameters))) self
    end.

(** *** Shutdown *)
Definition shutdown : M TopticaDLCPro unit :=
  fun self =>
    let self1 :=
      match client self with
      | Some c => let (c', r) := sdk_close c in set_client (Some c') [CClose r] self
      | None => self
      end in
    super_shutdown (set_client None [] self1).

Definition __exit__ : M TopticaDLCPro unit := shutdown.

End Driver.

Arguments TopticaDLCPro C : clear implicits.
Arguments InstrumentBase C : clear implicits.

End Toptica.

(** ** Test doubles *)

Module Double.

(** An adapter that accepts every write and reads from a queue of replies;
    reading from an empty queue times out. *)
#[export] Instance queue_adapter : Adapter (list string) := {|
  adapter_write a _ := (a, inr tt);
  adapter_write_raw a _ := (a, inr tt);
  adapter_read a :=
    match a with
    | [] => ([], inl (TransportError "timeout"))
    | r :: q => (q, inr r)
    end
|}.

(** A client driven by a table from parameter names to outcomes; it accepts
    every [open], [set] and [close]. *)
#[export] Instance table_client : Session (string -> result value) := {|
  sdk_open t := (t, inr tt);
  sdk_get t p := (t, t p);
  sdk_set t _ _ := (t, inr tt);
  sdk_close t := (t, inr tt)
|}.

(** A client without state that answers every read from one table. *)
Definition fixed_client (t : string -> result value) : Session unit := {|
  sdk_open _ := (tt, inr tt);
  sdk_get _ p := (tt, t p);
  sdk_set _ _ _ := (tt, inr tt);
  sdk_close _ := (tt, inr tt)
|}.

(** A host that prints a number as a fraction and whose clock stands
    still. *)
#[export] Instance fraction_host : Host := {|
  str_num q := (Agiltron.str_int (Qnum q) ++ "/" ++ Agiltron.str_int (Zpos (Qden q)))%string;
  now_isoformat := "2025-01-01T00:00:00"
|}.

(** A base class whose [shutdown] only logs. *)
#[export] Instance quiet_base {C : Type} : Toptica.InstrumentBase C := {|
  Toptica.super_shutdown s := (s, inr tt)
|}.

(** A device of neither known type.  [fault] is what reading
    ["fw:version"] raises; every other parameter reads as a string. *)
Definition dl_pro (fault : exn) : string -> result value :=
  fun p =>
    if String.eqb p "laser1:type" then inr (VStr "DLpro")
    else if String.eqb p "fw:version" then inl fault
    else inr (VStr ("value_for_" ++ p)%string).

(** A CTL laser tunable from 1500 nm to 1600 nm; two of its parameters
    cannot be read. *)
Definition ctl_laser : string -> result value :=
  fun p =>
    if String.eqb p "laser1:type" then inr (VStr "CTL")
    else if String.eqb p "laser1:ctl:wavelength-min" then inr (VNum 1500)
    else if String.eqb p "laser1:ctl:wavelength-max" then inr (VNum 1600)
    else if String.eqb p "laser1:ctl:mode" then inl (DecopError "unknown parameter")
    else if String.eqb p "laser1:scan:offset" then inl (DecopError "not available")
    else inr (VNum 1550).


(** A tapered amplifier limited to 1000 mA. *)
Definition ta_laser : string -> result value :=
  fun p =>
    if String.eqb p "laser1:type" then inr (VStr "DLC BoosTApro 1")
    else if String.eqb p "ampcc1:channel1:current-clip-limit" then inr (VNum 1000)
    else inr (VNum 800).

(** The instrument [TopticaDLCPro(ip)] builds on a table-driven client. *)
Definition laser (t : string -> result value) : Toptica.TopticaDLCPro (string -> result value) :=
  fst (Toptica.init "192.168.1.44" None t).

(** The same instrument on a client without state. *)
Definition fixed_laser (t : string -> result value) : Toptica.TopticaDLCPro unit :=
  fst (@Toptica.init unit (fixed_client t) "192.168.1.44" None tt).

(** Channel 1 of a generator whose next reply is [reply]. *)
Definition channel_1 (reply : string) : @SDG1032X.SDG1032XChannel (list string) :=
  {| SDG1032X.id := "1"; SDG1032X.adapter := [reply]; SDG1032X.log := [] |}.

(** An adapter on a broken line: every operation raises. *)
Definition broken_adapter : Adapter unit := {|
  adapter_write _ _ := (tt, inl (TransportError "write failed"));
  adapter_write_raw _ _ := (tt, inl (TransportError "write failed"));
  adapter_read _ := (tt, inl (TransportError "timeout"))
|}.

(** A switch of the given type on a silent line. *)
Definition switch (switch_type : string) : @Agiltron.AgiltronOpticalSwitch (list string) :=
  fst (Agiltron.init ([] : list string) switch_type).

(** A CTL laser whose scan offset cannot be read because the connection
    drops. *)
Definition ctl_flaky : string -> result value :=
  fun p =>
    if String.eqb p "laser1:type" then inr (VStr "CTL")
    else if String.eqb p "laser1:scan:offset" then inl (TransportError "connection lost")
    else inr (VNum 1550).

(** A 1x2 switch on a broken line. *)
Definition broken_switch : @Agiltron.AgiltronOpticalSwitch unit :=
  fst (@Agiltron.init unit broken_adapter tt "1x2").

End Double.
Import (hints) Double.

(** ** Predicates the statements use *)

(** No character of [s] is [sep]. *)
Fixpoint free_of (sep : ascii) (s : string) : bool :=
  match s with
  | EmptyString => true
  | String c r => negb (Ascii.eqb c sep) && free_of sep r
  end.

(** [k1; v1; k2; v2; ...] *)
Fixpoint interleave (kvs : list (string * string)) : list string :=
  match kvs with
  | [] => []
  | (k, v) :: r => k :: v :: interleave r
  end.

(** Code-point order on strings. *)
Definition lex_le (a b : string) : Prop := String.leb a b = true.

(** The entry [get_all_parameters] stores for a read. *)
Definition entry_of_result (r : result value) : Toptica.entry :=
  match r with
  | inr v => Toptica.EValue v
  | inl e => Toptica.EValue (VStr ("ERROR: " ++ exn_str e)%string)
  end.

(** The dictionary a sequence of reads leaves. *)
Definition record_gets (evs : list Toptica.call) (d : dict Toptica.entry) : dict Toptica.entry :=
  fold_left (fun d c => match c with
                        | Toptica.CGet p r => dict_set p (entry_of_result r) d
                        | _ => d
                        end) evs d.

(** [m] raises [e] and leaves the object as it was: no call was made. *)
Definition rejects {S A : Type} (m : M S A) (self : S) (e : exn) : Prop :=
  m self = (self, inl e).

(** Every property of the CTL laser is refused before any call. *)
Definition ctl_only_rejected {C : Type} `{Session C} `{Host}
           (self : Toptica.TopticaDLCPro C) : Prop :=
  let e := ValueError "This property is only available for CTL lasers" in
  rejects Toptica.wavelength self e
  /\ (forall v, rejects (Toptica.wavelength_set v) self e)
  /\ rejects Toptica.wavelength_actual self e
  /\ rejects Toptica.wavelength_limits self e
  /\ rejects Toptica.scan_offset self e
  /\ (forall v, rejects (Toptica.scan_offset_set v) self e)
  /\ rejects Toptica.scan_offset_limits self e
  /\ rejects Toptica.ctl_current self e
  /\ (forall v, rejects (Toptica.ctl_current_set v) self e)
  /\ rejects Toptica.ctl_current_actual self e.

(** [s] holds [sub] somewhere. *)
Definition has_substring (sub s : string) : Prop :=
  exists pre post, s = (pre ++ sub ++ post)%string.

(** The [shutdown] of the base class returns, and leaves the client handle
    and the record of calls alone. *)
Definition base_shutdown_returns {C : Type} `{Toptica.InstrumentBase C} : Prop :=
  forall s : Toptica.TopticaDLCPro C,
  exists s', Toptica.super_shutdown s = (s', inr tt)
             /\ Toptica.client s' = Toptica.client s
             /\ Toptica.calls s' = Toptica.calls s.

(** Whenever a read raises, what it raises is the SDK's own error. *)
Definition raises_only_decop {C : Type} `{Session C} : Prop :=
  forall (c : C) (p : string) (e : exn), snd (sdk_get c p) = inl e -> is_decop e = true.

(** What stays of the instrument while parameters are read. *)
Definition same_identity {C : Type} (self self' : Toptica.TopticaDLCPro C) : Prop :=
  Toptica.laser_type self' = Toptica.laser_type self
  /\ Toptica.ip_address self' = Toptica.ip_address self
  /\ Toptica.name self' = Toptica.name self
  /\ exists c', Toptica.client self' = Some c'.

(** The candidates of a laser of neither known type, in the order they are
    probed. *)
Definition unknown_candidates : list string :=
  [ "cc1:board-temp"; "emission"; "fw:version"; "laser1:type"; "system:model";
    "system:serial-number"; "system:uptime"; "tc1:board-temp" ].

(** Every property of the TA laser is refused before any call. *)
Definition ta_only_rejected {C : Type} `{Session C} `{Host}
           (self : Toptica.TopticaDLCPro C) : Prop :=
  let e := ValueError "This property is only available for TA lasers" in
  rejects Toptica.ta_current self e
  /\ (forall v, rejects (Toptica.ta_current_set v) self e)
  /\ rejects Toptica.ta_current_actual self e
  /\ rejects Toptica.ta_current_limit self e
  /\ rejects Toptica.ta_temperature self e
  /\ rejects Toptica.ta_temperature_setpoint self e
  /\ (forall v, rejects (Toptica.ta_temperature_setpoint_set v) self e)
  /\ rejects Toptica.ta_temperature_limits self e.

(** What a failed call to the SDK surfaces as: the SDK's own error becomes a
    [ValueError] that starts with [prefix] and ends with the text of the
    error, anything else passes through. *)
Definition surfaced (prefix : string -> string) (e : exn) : exn :=
  if is_decop e then ValueError (prefix (": " ++ exn_str e)%string) else e.

(** From [self] to [self'] nothing was written to the device and the
    instrument is still the same one. *)
Definition read_only {C : Type} (self self' : Toptica.TopticaDLCPro C) : Prop :=
  Toptica.writes (Toptica.calls self') = Toptica.writes (Toptica.calls self)
  /\ Toptica.laser_type self' = Toptica.laser_type self
  /\ Toptica.ip_address self' = Toptica.ip_address self
  /\ Toptica.name self' = Toptica.name self.

(** A switch as [__init__] leaves it: its range is the one of its type. *)
Definition well_formed {A : Type} (self : @Agiltron.AgiltronOpticalSwitch A) : Prop :=
  (Agiltron.switch_type self = "1x2" /\ Agiltron._channel_range self = (1, 3)%Z)
  \/ (Agiltron.switch_type self = "1x8" /\ Agiltron._channel_range self = (1, 9)%Z).


(** Every write to the adapter raises [e]. *)
Definition refuses_writes {A : Type} `{Adapter A} (a : A) (e : exn) : Prop :=
  (forall cmd, snd (adapter_write a cmd) = inl e)
  /\ (forall msg, snd (adapter_write_raw a msg) = inl e).

(** The value the last pair with key [k] gives it, if there is one. *)
Definition last_value (k : string) (kvs : list (string * string)) : option string :=
  fold_left (fun acc kv => if String.eqb (fst kv) k then Some (snd kv) else acc) kvs None.

(** Nothing but blanks. *)
Fixpoint blank (s : string) : bool :=
  match s with
  | EmptyString => true
  | String c r => is_space c && blank r
  end.

(** * Properties *)

(** ** Strings and dictionaries *)

Example split_three : split "," "a,,b" = ["a"; ""; "b"].
Proof. reflexivity. Qed.

Example split_empty : split "," "" = [""].
Proof. reflexivity. Qed.

Example split_ws_blank : split_ws "  C1:OUTP   ON " = ["C1:OUTP"; "ON"].
Proof. reflexivity. Qed.

Lemma slice_from_app (pre s : string) :
  slice_from (String.length pre) (pre ++ s)%string = s.
Proof. induction pre as [|c pre IH]; simpl; [destruct s|]; auto. Qed.

Lemma split_free (sep : ascii) (s : string) :
  free_of sep s = true -> split sep s = [s].
Proof.
  induction s as [|c s IH]; simpl; [reflexivity|].
  intros Hf. apply andb_true_iff in Hf as [Hc Hs].
  apply negb_true_iff in Hc. rewrite Hc, (IH Hs). reflexivity.
Qed.

Lemma split_app_sep (sep : ascii) (x s : string) :
  free_of sep x = true ->
  split sep (x ++ String sep s)%string = x :: split sep s.
Proof.
  induction x as [|c x IH]; simpl.
  - intros _. rewrite Ascii.eqb_refl. reflexivity.
  - intros Hf. apply andb_true_iff in Hf as [Hc Hx].
    apply negb_true_iff in Hc. rewrite Hc, (IH Hx). reflexivity.
Qed.

(** Splitting undoes joining when no token holds the separator. *)
Lemma split_join (sep : ascii) (l : list string) :
  l <> [] -> Forall (fun x => free_of sep x = true) l ->
  split sep (join (String sep EmptyString) l) = l.
Proof.
  induction l as [|x l IH]; [congruence|].
  intros _ Hall. inversion Hall as [|? ? Hx Hl]; subst.
  destruct l as [|y l].
  - simpl. apply split_free; assumption.
  - change (join (String sep "") (x :: y :: l))
      with (x ++ String sep (join (String sep "") (y :: l)))%string.
    rewrite split_app_sep by assumption.
    rewrite IH; [reflexivity | congruence | assumption].
Qed.

Lemma dict_set_fresh {V} (k : string) (v : V) (d : dict V) :
  ~ In k (keys d) -> dict_set k v d = d ++ [(k, v)].
Proof.
  induction d as [|[k' v'] d IH]; simpl; [reflexivity|].
  intros Hn. destruct (String.eqb_spec k' k) as [->|Hne].
  - exfalso. apply Hn. left. reflexivity.
  - rewrite IH; [reflexivity|]. intro Hin. apply Hn. right. exact Hin.
Qed.

Lemma keys_dict_set_in {V} (k : string) (v : V) (d : dict V) :
  In k (keys d) -> keys (dict_set k v d) = keys d.
Proof.
  induction d as [|[k' v'] d IH]; simpl; [tauto|].
  intros Hin. destruct (String.eqb_spec k' k) as [->|Hne]; simpl; [reflexivity|].
  f_equal. apply IH. destruct Hin; [congruence | assumption].
Qed.

Lemma dict_get_set_same {V} (k : string) (v : V) (d : dict V) :
  dict_get k (dict_set k v d) = Some v.
Proof.
  induction d as [|[k' v'] d IH]; simpl.
  - rewrite String.eqb_refl. reflexivity.
  - destruct (String.eqb_spec k' k) as [->|Hne]; simpl.
    + rewrite String.eqb_refl. reflexivity.
    + apply String.eqb_neq in Hne. rewrite Hne. exact IH.
Qed.

Lemma dict_get_set_other {V} (k k' : string) (v : V) (d : dict V) :
  k <> k' -> dict_get k' (dict_set k v d) = dict_get k' d.
Proof.
  intros Hne. induction d as [|[k0 v0] d IH]; simpl.
  - apply String.eqb_neq in Hne. rewrite Hne. reflexivity.
  - destruct (String.eqb_spec k0 k) as [->|Hne0]; simpl.
    + apply String.eqb_neq in Hne. rewrite Hne. reflexivity.
    + rewrite IH. reflexivity.
Qed.

(** Assigning pairs with fresh, distinct keys appends them in order. *)
Lemma fold_dict_set_fresh (kvs d : dict string) :
  NoDup (keys d ++ keys kvs) ->
  fold_left (fun d kv => dict_set (fst kv) (snd kv) d) kvs d = d ++ kvs.
Proof.
  revert d. induction kvs as [|[k v] kvs IH]; intros d Hnd; simpl.
  - rewrite app_nil_r. reflexivity.
  - assert (Hk : ~ In k (keys d)).
    { intro Hin. apply NoDup_remove_2 in Hnd. apply Hnd.
      apply in_or_app. left. exact Hin. }
    rewrite dict_set_fresh by exact Hk.
    rewrite IH.
    + rewrite <- app_assoc. reflexivity.
    + unfold keys in *. rewrite map_app. simpl. rewrite <- app_assoc. exact Hnd.
Qed.

(** ** Siglent SDG1032X: the waveform settings *)

Lemma length_interleave (kvs : list (string * string)) :
  List.length (interleave kvs) = 2 * List.length kvs.
Proof. induction kvs as [|[k v] kvs IH]; simpl; [reflexivity | rewrite IH; lia]. Qed.

Lemma index_app_mid {A} (pre : list A) (x : A) (post : list A) :
  index (pre ++ x :: post) (List.length pre) = inr x.
Proof.
  unfold index. rewrite nth_error_app2 by lia. rewrite Nat.sub_diag. reflexivity.
Qed.

(** From an even position on, the loop assigns each pair in turn. *)
Lemma settings_loop_pairs (kvs : list (string * string)) :
  forall (pre : list string) (d : dict string),
    Nat.even (List.length pre) = true ->
    SDG1032X.settings_loop (pre ++ interleave kvs)
      (combine (seq (List.length pre) (List.length (interleave kvs))) (interleave kvs)) d
    = inr (fold_left (fun d kv => dict_set (fst kv) (snd kv) d) kvs d).
Proof.
  induction kvs as [|[k v] kvs IH]; intros pre d Hev; [reflexivity|].
  cbn [interleave List.length seq combine SDG1032X.settings_loop fold_left fst snd].
  assert (Hmod : List.length pre mod 2 = 0).
  { apply Nat.even_spec in Hev. destruct Hev as [m ->].
    rewrite Nat.mul_comm. apply Nat.Div0.mod_mul. }
  rewrite Hmod. cbn [Nat.eqb].
  replace (pre ++ k :: v :: interleave kvs) with ((pre ++ [k]) ++ v :: interleave kvs)
    by (rewrite <- app_assoc; reflexivity).
  replace (List.length pre + 1) with (List.length (pre ++ [k]))
    by (rewrite length_app; reflexivity).
  rewrite index_app_mid.
  assert (Hodd : S (List.length pre) mod 2 = 1).
  { apply Nat.even_spec in Hev. destruct Hev as [m ->].
    replace (S (2 * m)) with (1 + m * 2) by lia. rewrite Nat.Div0.mod_add. reflexivity. }
  rewrite Hodd. cbn [Nat.eqb].
  replace ((pre ++ [k]) ++ v :: interleave kvs) with ((pre ++ [k; v]) ++ interleave kvs)
    by (rewrite <- !app_assoc; reflexivity).
  replace (S (S (List.length pre))) with (List.length (pre ++ [k; v]))
    by (rewrite length_app; simpl; lia).
  apply IH. rewrite length_app. simpl.
  replace (List.length pre + 2) with (S (S (List.length pre))) by lia.
  rewrite Nat.even_succ_succ. exact Hev.
Qed.

(** What the parse gives on an echo of eight characters followed by
    comma-joined pairs. *)
Lemma waveform_settings_of_pairs (echo : string) (kvs : list (string * string)) :
  String.length echo = 8 ->
  kvs <> [] ->
  NoDup (keys kvs) ->
  Forall (fun x => free_of "," x = true) (interleave kvs) ->
  SDG1032X.waveform_settings_of_response (echo ++ join "," (interleave kvs))%string
  = inr kvs.
Proof.
  intros Hlen Hne Hnd Hfree. unfold SDG1032X.waveform_settings_of_response.
  rewrite <- Hlen, slice_from_app.
  rewrite split_join; [| destruct kvs as [|[k v] kvs]; [congruence | discriminate] | exact Hfree].
  unfold enumerate.
  pose proof (settings_loop_pairs kvs [] [] eq_refl) as Hloop.
  simpl app in Hloop. cbn [List.length] in Hloop. rewrite Hloop.
  rewrite fold_dict_set_fresh; [reflexivity | exact Hnd].
Qed.

Example waveform_echo : SDG1032X.waveform_settings_of_response "ECHO,KEY1,10,KEY2,20"
  = inr [("1", "10"); ("KEY2", "20")].
Proof. reflexivity. Qed.

Section SDG1032X_ask.
Context {A : Type} `{Adapter A}.

(** A query that is written and answered hands the reply to the parse. *)
Lemma get_waveform_settings_reply (self : @SDG1032X.SDG1032XChannel A)
      (a1 a2 : A) (response : string) :
  adapter_write (SDG1032X.adapter self) (":BSWV" ++ SDG1032X.id self ++ "?")%string
    = (a1, inr tt) ->
  adapter_read a1 = (a2, inr response) ->
  snd (SDG1032X.get_waveform_settings self)
  = SDG1032X.waveform_settings_of_response response.
Proof.
  intros Hw Hr. unfold SDG1032X.get_waveform_settings, bind, SDG1032X.ask.
  rewrite Hw. rewrite Hr. reflexivity.
Qed.

(** C2, as the code has it: the first eight characters of the reply are
    dropped, whatever they are, and what follows is split at the commas and
    paired off in order; the reply [echo ++ "k1,v1,...,kn,vn"] with an
    eight-character echo, distinct keys and no comma inside a token gives
    exactly the ordered mapping [k1: v1, ..., kn: vn]. *)
Theorem C2_eight_character_echo (self : @SDG1032X.SDG1032XChannel A)
        (a1 a2 : A) (echo : string) (kvs : list (string * string)) :
  adapter_write (SDG1032X.adapter self) (":BSWV" ++ SDG1032X.id self ++ "?")%string
    = (a1, inr tt) ->
  adapter_read a1 = (a2, inr (echo ++ join "," (interleave kvs))%string) ->
  String.length echo = 8 ->
  kvs <> [] ->
  NoDup (keys kvs) ->
  Forall (fun x => free_of "," x = true) (interleave kvs) ->
  snd (SDG1032X.get_waveform_settings self) = inr kvs.
Proof.
  intros Hw Hr Hlen Hne Hnd Hfree.
  rewrite (get_waveform_settings_reply self Hw Hr).
  apply waveform_settings_of_pairs; assumption.
Qed.
End SDG1032X_ask.

Lemma C2_eight_character_echo_witness :
  snd (SDG1032X.get_waveform_settings (Double.channel_1 "C1:BSWV KEY1,10,KEY2,20"))
  = inr [("KEY1", "10"); ("KEY2", "20")].
Proof.
  apply (@C2_eight_character_echo _ _ (Double.channel_1 "C1:BSWV KEY1,10,KEY2,20")
           ["C1:BSWV KEY1,10,KEY2,20"] [] "C1:BSWV " [("KEY1", "10"); ("KEY2", "20")]).
  - reflexivity.
  - reflexivity.
  - reflexivity.
  - discriminate.
  - repeat constructor; simpl; intuition discriminate.
  - repeat constructor.
Defined.

(** C2, as stated, fails: with the reply ["ECHO,KEY1,10,KEY2,20"] the eight
    characters dropped reach into the first key, and the mapping is not
    [KEY1: 10, KEY2: 20]. *)
Lemma C2_five_character_echo_counterexample :
  snd (SDG1032X.get_waveform_settings (Double.channel_1 "ECHO,KEY1,10,KEY2,20"))
  = inr [("1", "10"); ("KEY2", "20")]
  /\ snd (SDG1032X.get_waveform_settings (Double.channel_1 "ECHO,KEY1,10,KEY2,20"))
     <> inr [("KEY1", "10"); ("KEY2", "20")].
Proof. split; [reflexivity | discriminate]. Qed.

(** The guarded parsers fall back on their default. *)
Lemma output_polarity_short (v : list string) :
  List.length v <= 6 -> SDG1032X.output_polarity_get_process_list v = inr "NOR".
Proof.
  intros Hl. unfold SDG1032X.output_polarity_get_process_list.
  destruct (Nat.ltb_spec 6 (List.length v)); [lia | reflexivity].
Qed.

Lemma output_load_short (v : list string) :
  List.length v <= 2 -> SDG1032X.output_load_get_process_list v = inr "HZ".
Proof.
  intros Hl. unfold SDG1032X.output_load_get_process_list.
  destruct (Nat.ltb_spec 2 (List.length v)); [lia | reflexivity].
Qed.

Lemma noise_addition_enabled_short (v : list string) :
  List.length v <= 1 -> SDG1032X.noise_addition_enabled_get_process_list v = inr false.
Proof.
  intros Hl. unfold SDG1032X.noise_addition_enabled_get_process_list.
  destruct (Nat.ltb_spec 1 (List.length v)); [lia | reflexivity].
Qed.

Lemma index_in_bounds {A} (l : list A) (i : nat) :
  i < List.length l -> exists x, index l i = inr x.
Proof.
  intros Hi. unfold index. destruct (nth_error l i) eqn:E; [eauto|].
  apply nth_error_None in E. lia.
Qed.

(** The three parsers that only index the token list never index out of
    bounds. *)
Lemma guarded_parsers_total (v : list string) :
  (exists s, SDG1032X.output_polarity_get_process_list v = inr s)
  /\ (exists s, SDG1032X.output_load_get_process_list v = inr s)
  /\ (exists b, SDG1032X.noise_addition_enabled_get_process_list v = inr b).
Proof.
  unfold SDG1032X.output_polarity_get_process_list, SDG1032X.output_load_get_process_list,
    SDG1032X.noise_addition_enabled_get_process_list.
  repeat split.
  - destruct (Nat.ltb_spec 6 (List.length v)); [apply index_in_bounds; lia | eauto].
  - destruct (Nat.ltb_spec 2 (List.length v)); [apply index_in_bounds; lia | eauto].
  - destruct (Nat.ltb_spec 1 (List.length v)) as [Hl|Hl]; [|eauto].
    destruct (index_in_bounds v Hl) as [x ->]. eauto.
Qed.

(** C6 at the inputs where the code leaves the claim: a reply that ends
    after a key, or that holds nothing after the echo, makes
    [get_waveform_settings] index past the end of the token list, and a reply
    whose first token is blank does the same to the parser of
    [output_enabled]; none of them returns a default. *)
Theorem C6_short_reply_index_error :
  snd (SDG1032X.get_waveform_settings (Double.channel_1 "C1:BSWV WVTP,SINE,FRQ"))
  = inl (IndexError "list index out of range")
  /\ snd (SDG1032X.get_waveform_settings (Double.channel_1 "C1:BSWV "))
     = inl (IndexError "list index out of range")
  /\ snd (SDG1032X.get_waveform_settings (Double.channel_1 ""))
     = inl (IndexError "list index out of range")
  /\ SDG1032X.output_enabled_get_process_list [""; "ON"]
     = inl (IndexError "list index out of range").
Proof. repeat split; reflexivity. Qed.

(** ** Agiltron optical switch: the channel *)

Section Agiltron_channel.
Context {A : Type} `{Adapter A}.

(** A 1x2 switch is built without a word on the line; a 1x8 switch is asked
    for its product name first. *)
Lemma init_1x2 (a0 : A) :
  Agiltron.init a0 "1x2"
  = ({| Agiltron.adapter := a0; Agiltron.log := []; Agiltron.switch_type := "1x2";
        Agiltron._channel_range := (1, 3)%Z; Agiltron._current_channel := None;
        Agiltron._product_name := None; Agiltron._serial_number := None |}, inr tt).
Proof. reflexivity. Qed.

Lemma in_range_false (value lo hi : Z) :
  (value < lo \/ hi <= value)%Z <-> Agiltron.in_range value (lo, hi) = false.
Proof. unfold Agiltron.in_range; simpl. rewrite andb_false_iff, Z.leb_gt, Z.ltb_ge. tauto. Qed.

(** A value outside the range of the switch is refused and the switch is
    left as it was: nothing is written, nothing is remembered. *)
Lemma channel_set_rejects (self : @Agiltron.AgiltronOpticalSwitch A) (value : Z) :
  Agiltron.in_range value (Agiltron._channel_range self) = false ->
  exists msg, Agiltron.channel_set value self = (self, inl (ValueError msg)).
Proof.
  intros Hout. unfold Agiltron.channel_set. rewrite Hout. simpl. eauto.
Qed.

Lemma channel_set_1x2_frame (self : @Agiltron.AgiltronOpticalSwitch A) (value : Z)
      (msg : list byte) :
  Agiltron.switch_type self = "1x2" ->
  Agiltron._channel_range self = (1, 3)%Z ->
  (value = 1 /\ msg = [x01; x12; x00; x01]%byte
   \/ value = 2 /\ msg = [x01; x12; x00; x02]%byte)%Z ->
  Agiltron.log (fst (Agiltron.channel_set value self)) = Agiltron.log self ++ [WriteRaw msg].
Proof.
  intros Ht Hr Hv. unfold Agiltron.channel_set. rewrite Ht, Hr.
  destruct Hv as [[-> ->]|[-> ->]]; cbn [Agiltron.in_range fst snd Z.leb Z.ltb Z.compare
    Pos.compare Pos.compare_cont andb negb String.eqb Ascii.eqb Bool.eqb Z.eqb Pos.eqb];
    unfold bind, Agiltron.write_raw;
    destruct (adapter_write_raw (Agiltron.adapter self) _) as [a [e|[]]]; reflexivity.
Qed.

(** C7: on a 1x2 switch, setting the channel to 2 hands the adapter exactly
    the four bytes 01 12 00 02, and setting it to 1 exactly 01 12 00 01; the
    frame is the only thing that reaches the adapter: no text is written and
    no read is attempted, so no acknowledgement is read back. *)
Theorem C7_binary_frame (self : @Agiltron.AgiltronOpticalSwitch A) :
  Agiltron.switch_type self = "1x2" ->
  Agiltron._channel_range self = (1, 3)%Z ->
  Agiltron.log (fst (Agiltron.channel_set 2 self))
  = Agiltron.log self ++ [WriteRaw [x01; x12; x00; x02]%byte]
  /\ Agiltron.log (fst (Agiltron.channel_set 1 self))
     = Agiltron.log self ++ [WriteRaw [x01; x12; x00; x01]%byte].
Proof.
  intros Ht Hr. split; apply channel_set_1x2_frame; auto.
Qed.

End Agiltron_channel.

Lemma C7_binary_frame_witness :
  Agiltron.log (fst (Agiltron.channel_set 2 (Double.switch "1x2")))
  = [WriteRaw [x01; x12; x00; x02]%byte]
  /\ Agiltron.log (fst (Agiltron.channel_set 1 (Double.switch "1x2")))
     = [WriteRaw [x01; x12; x00; x01]%byte].
Proof.
  apply (@C7_binary_frame _ _ (Double.switch "1x2")); reflexivity.
Defined.

Example switch_1x8_text : 
  Agiltron.log (fst (Agiltron.channel_set 3 (Double.switch "1x8")))
  = [WriteText "*PN"; Read; WriteText "*SW003"].
Proof. reflexivity. Qed.

(** ** Toptica DLC Pro: the type of the laser *)

Lemma prefix_app (sub s : string) :
  String.prefix sub s = true <-> exists post, s = (sub ++ post)%string.
Proof.
  revert s. induction sub as [|a sub IH]; intros s.
  - destruct s; simpl; split; eauto.
  - destruct s as [|b s]; simpl;
      [split; [discriminate | intros [post Hp]; discriminate]|].
    destruct (ascii_dec a b) as [->|Hne].
    + rewrite IH. split; intros [post Hp]; exists post; congruence.
    + split; [discriminate | intros [post Hp]; congruence].
Qed.

Lemma contains_spec (sub s : string) :
  contains sub s = true <-> has_substring sub s.
Proof.
  unfold has_substring. induction s as [|c s IH].
  - cbn [contains]. rewrite orb_false_r, prefix_app. split.
    + intros [post Hp]. exists EmptyString, post. exact Hp.
    + intros [[|c pre] [post Hp]]; [eauto | discriminate].
  - cbn [contains]. rewrite orb_true_iff, prefix_app, IH. split.
    + intros [[post Hp]|[pre [post Hp]]].
      * exists EmptyString, post. exact Hp.
      * exists (String c pre), post. simpl. congruence.
    + intros [[|c' pre] [post Hp]].
      * left. eauto.
      * right. exists pre, post. simpl in Hp. congruence.
Qed.

Lemma length_append (a b : string) :
  String.length (a ++ b)%string = String.length a + String.length b.
Proof. induction a as [|c a IH]; simpl; [reflexivity | rewrite IH; reflexivity]. Qed.

(** The three outcomes of the detection. *)
Lemma detect_CTL : Toptica.detect "CTL" = "CTL".
Proof. reflexivity. Qed.

Lemma detect_TA (s : string) : has_substring "BoosTApro" s -> Toptica.detect s = "TA".
Proof.
  intros Hs. unfold Toptica.detect. destruct (String.eqb_spec s "CTL") as [->|_].
  - destruct Hs as [pre [post Hp]]. apply (f_equal String.length) in Hp.
    rewrite !length_append in Hp. simpl in Hp. lia.
  - apply contains_spec in Hs. rewrite Hs. reflexivity.
Qed.

Lemma detect_Unknown (s : string) :
  s <> "CTL" -> ~ has_substring "BoosTApro" s -> Toptica.detect s = "Unknown".
Proof.
  intros Hc Hs. unfold Toptica.detect.
  destruct (String.eqb_spec s "CTL") as [|_]; [contradiction|].
  destruct (contains "BoosTApro" s) eqn:E; [|reflexivity].
  apply contains_spec in E. contradiction.
Qed.

Section Toptica_gate.
Context {C : Type} `{Session C} `{Host}.

Lemma only_for_mismatch (t : string) (self : Toptica.TopticaDLCPro C) :
  Toptica.laser_type self <> Some t ->
  Toptica.only_for t self
  = (self, inl (ValueError ("This property is only available for " ++ t ++ " lasers")%string)).
Proof.
  intros Hne. unfold Toptica.only_for. destruct (Toptica.laser_type self) as [t'|]; [|reflexivity].
  destruct (String.eqb_spec t' t) as [->|_]; [congruence | reflexivity].
Qed.

Lemma only_for_match (t : string) (self : Toptica.TopticaDLCPro C) :
  Toptica.laser_type self = Some t -> Toptica.only_for t self = (self, inr tt).
Proof.
  intros Ht. unfold Toptica.only_for. rewrite Ht, String.eqb_refl. reflexivity.
Qed.

(** On a laser that is not a CTL the guard fires first: nothing is read and
    nothing is written. *)
Lemma ctl_only_gate (self : Toptica.TopticaDLCPro C) :
  Toptica.laser_type self <> Some "CTL" -> ctl_only_rejected self.
Proof.
  intros Hne. pose proof (only_for_mismatch self Hne) as Hg.
  unfold ctl_only_rejected, rejects, Toptica.wavelength, Toptica.wavelength_set,
    Toptica.wavelength_actual, Toptica.wavelength_limits, Toptica.scan_offset,
    Toptica.scan_offset_set, Toptica.scan_offset_limits, Toptica.ctl_current,
    Toptica.ctl_current_set, Toptica.ctl_current_actual, bind.
  rewrite Hg. repeat split.
Qed.

Lemma init_detects (ip : string) (name0 : option string) (conn c1 c2 : C) (s : string) :
  sdk_open conn = (c1, inr tt) ->
  sdk_get c1 "laser1:type" = (c2, inr (VStr s)) ->
  exists self,
    Toptica.init ip name0 conn = (self, inr tt)
    /\ Toptica.laser_type self = Some (Toptica.detect s)
    /\ Toptica.client self = Some c2
    /\ Toptica.calls self = [Toptica.COpen (inr tt); Toptica.CGet "laser1:type" (inr (VStr s))].
Proof.
  intros Ho Hg.
  unfold Toptica.init, bind, Toptica._open_connection, try_except, bind, Toptica.client_get.
  rewrite Ho. cbn [Toptica.client Toptica.set_client]. rewrite Hg.
  destruct name0 as [n|]; eexists; repeat split.
Qed.

(** C5: a device whose type query answers ["CTL"] is detected as CTL; one
    whose answer holds ["BoosTApro"] is detected as TA, and on it every
    CTL-only property (the wavelength first of all) is refused with the error
    of the type guard, the instrument untouched and no call made to the
    client; any other answer gives Unknown.  The type is asked for once. *)
Theorem C5_variant_gate (ip : string) (name0 : option string) (conn c1 c2 : C) (s : string) :
  sdk_open conn = (c1, inr tt) ->
  sdk_get c1 "laser1:type" = (c2, inr (VStr s)) ->
  exists self,
    Toptica.init ip name0 conn = (self, inr tt)
    /\ Toptica.calls self = [Toptica.COpen (inr tt); Toptica.CGet "laser1:type" (inr (VStr s))]
    /\ (s = "CTL" -> Toptica.laser_type self = Some "CTL")
    /\ (has_substring "BoosTApro" s ->
        Toptica.laser_type self = Some "TA" /\ ctl_only_rejected self)
    /\ (s <> "CTL" -> ~ has_substring "BoosTApro" s ->
        Toptica.laser_type self = Some "Unknown" /\ ctl_only_rejected self).
Proof.
  intros Ho Hg. destruct (init_detects ip name0 conn Ho Hg) as [self [Hi [Ht [_ Hc]]]].
  exists self. split; [exact Hi|]. split; [exact Hc|]. split; [|split].
  - intros ->. rewrite Ht. reflexivity.
  - intros Hs. rewrite Ht, (detect_TA Hs). split; [reflexivity|].
    apply ctl_only_gate. rewrite Ht, (detect_TA Hs). discriminate.
  - intros Hn Hs. rewrite Ht, (detect_Unknown Hn Hs). split; [reflexivity|].
    apply ctl_only_gate. rewrite Ht, (detect_Unknown Hn Hs). discriminate.
Qed.

End Toptica_gate.

Lemma C5_variant_gate_witness :
  exists self,
    Toptica.init "192.168.1.104" None Double.ta_laser = (self, inr tt)
    /\ Toptica.laser_type self = Some "TA"
    /\ rejects Toptica.wavelength self
         (ValueError "This property is only available for CTL lasers").
Proof.
  destruct (@C5_variant_gate _ Double.table_client Double.fraction_host "192.168.1.104" None Double.ta_laser
              Double.ta_laser Double.ta_laser "DLC BoosTApro 1" eq_refl eq_refl)
    as [self [Hi [_ [_ [Hta _]]]]].
  destruct (Hta (ex_intro _ "DLC " (ex_intro _ " 1" eq_refl))) as [Ht Hrej].
  exists self. repeat split; [exact Hi | exact Ht | apply Hrej].
Defined.

Example ctl_laser_detected : Toptica.laser_type (Double.laser Double.ctl_laser) = Some "CTL".
Proof. reflexivity. Qed.

Example ctl_laser_named : Toptica.name (Double.laser Double.ctl_laser) = "Toptica DLC Pro CTL".
Proof. reflexivity. Qed.

(** ** Validation before writing *)

Lemma Qltb_lt (a b : Q) : Toptica.Qltb a b = true <-> (a < b)%Q.
Proof.
  unfold Toptica.Qltb. rewrite negb_true_iff. split.
  - intros Hf. apply Qnot_le_lt. intro Hle. apply Qle_bool_iff in Hle. congruence.
  - intros Hlt. destruct (Qle_bool b a) eqn:E; [|reflexivity].
    apply Qle_bool_iff in E. exfalso. exact (Qlt_not_le _ _ Hlt E).
Qed.

(** A number is outside [[lo, hi]] exactly when the comparison of the
    setters says so. *)
Lemma outside_numbers (q lo hi : Q) :
  (q < lo \/ hi < q)%Q <-> Toptica.outside (VNum q) (VNum lo) (VNum hi) = inr true.
Proof.
  unfold Toptica.outside, Toptica.py_lt, Toptica.num_of. split.
  - intros [Hl|Hh].
    + apply Qltb_lt in Hl. rewrite Hl. reflexivity.
    + apply Qltb_lt in Hh. rewrite Hh. destruct (Toptica.Qltb q lo); reflexivity.
  - destruct (Toptica.Qltb q lo) eqn:El.
    + intros _. left. apply Qltb_lt. exact El.
    + intros Hh. right. apply Qltb_lt. congruence.
Qed.

Section Toptica_validation.
Context {C : Type} `{Session C} `{Host}.

Lemma _get_parameter_returns (self : Toptica.TopticaDLCPro C) (c c' : C) (p : string) (v : value) :
  Toptica.client self = Some c ->
  sdk_get c p = (c', inr v) ->
  Toptica._get_parameter p self
  = (Toptica.set_client (Some c') [Toptica.CGet p (inr v)] self, inr v).
Proof.
  intros Hc Hg. unfold Toptica._get_parameter, try_except, Toptica.client_get.
  rewrite Hc, Hg. reflexivity.
Qed.

Lemma writes_app (l1 l2 : list Toptica.call) :
  Toptica.writes (l1 ++ l2) = Toptica.writes l1 ++ Toptica.writes l2.
Proof. apply filter_app. Qed.

(** An out-of-range wavelength: the two limits are read first, then the
    error is raised with the limits in its text; [client.set] is never
    reached. *)
Lemma wavelength_set_refused (self : Toptica.TopticaDLCPro C) (c c1 c2 : C) (q lo hi : Q) :
  Toptica.client self = Some c ->
  Toptica.laser_type self = Some "CTL" ->
  sdk_get c "laser1:ctl:wavelength-min" = (c1, inr (VNum lo)) ->
  sdk_get c1 "laser1:ctl:wavelength-max" = (c2, inr (VNum hi)) ->
  (q < lo \/ hi < q)%Q ->
  exists self',
    Toptica.wavelength_set (VNum q) self
    = (self', inl (ValueError ("Wavelength must be between " ++ str_num lo ++ " nm and "
                               ++ str_num hi ++ " nm")%string))
    /\ Toptica.calls self'
       = Toptica.calls self ++ [Toptica.CGet "laser1:ctl:wavelength-min" (inr (VNum lo));
                                Toptica.CGet "laser1:ctl:wavelength-max" (inr (VNum hi))].
Proof.
  intros Hc Ht Hlo Hhi Hout. apply outside_numbers in Hout.
  unfold Toptica.wavelength_set, Toptica.checked_set, bind.
  rewrite (only_for_match self Ht).
  rewrite (_get_parameter_returns self "laser1:ctl:wavelength-min" Hc Hlo).
  erewrite _get_parameter_returns; [| reflexivity | exact Hhi].
  rewrite Hout. unfold raise. eexists. split; [reflexivity|].
  cbn [Toptica.calls Toptica.set_client]. rewrite <- app_assoc. reflexivity.
Qed.

(** An out-of-range amplifier current: the limit is read first, then the
    error is raised; [client.set] is never reached. *)
Lemma ta_current_set_refused (self : Toptica.TopticaDLCPro C) (c c1 : C) (q hi : Q) :
  Toptica.client self = Some c ->
  Toptica.laser_type self = Some "TA" ->
  sdk_get c "ampcc1:channel1:current-clip-limit" = (c1, inr (VNum hi)) ->
  (q < 0 \/ hi < q)%Q ->
  exists self',
    Toptica.ta_current_set (VNum q) self
    = (self', inl (ValueError ("Current must be between 0 and " ++ str_num hi ++ " mA")%string))
    /\ Toptica.calls self'
       = Toptica.calls self
         ++ [Toptica.CGet "ampcc1:channel1:current-clip-limit" (inr (VNum hi))].
Proof.
  intros Hc Ht Hhi Hout. apply outside_numbers in Hout.
  unfold Toptica.ta_current_set, Toptica.checked_set, bind.
  rewrite (only_for_match self Ht). unfold ret at 1.
  rewrite (_get_parameter_returns self "ampcc1:channel1:current-clip-limit" Hc Hhi).
  rewrite Hout. unfold raise. eexists. split; reflexivity.
Qed.

Lemma only_for_state (t : string) (self : Toptica.TopticaDLCPro C) :
  fst (Toptica.only_for t self) = self.
Proof.
  unfold Toptica.only_for. destruct (Toptica.laser_type self) as [t'|]; [|reflexivity].
  destruct (String.eqb t' t); reflexivity.
Qed.

(** Reading a parameter writes nothing, whatever the read does. *)
Lemma _get_parameter_writes (p : string) (self : Toptica.TopticaDLCPro C) :
  Toptica.writes (Toptica.calls (fst (Toptica._get_parameter p self)))
  = Toptica.writes (Toptica.calls self).
Proof.
  unfold Toptica._get_parameter, try_except, Toptica.client_get.
  destruct (Toptica.client self) as [c|]; [|reflexivity].
  destruct (sdk_get c p) as [c' [e|v]]; [destruct (is_decop e)|];
    cbn [fst raise Toptica.calls Toptica.set_client]; rewrite writes_app; apply app_nil_r.
Qed.

(** A checked setter writes only what it has compared: either nothing was
    written, or both limits were read and the value was found inside them. *)
Lemma checked_set_writes_validated (lo hi : M (Toptica.TopticaDLCPro C) value)
      (msg : value -> value -> string) (target : string) (v : value)
      (self : Toptica.TopticaDLCPro C) :
  (forall s, Toptica.writes (Toptica.calls (fst (lo s))) = Toptica.writes (Toptica.calls s)) ->
  (forall s, Toptica.writes (Toptica.calls (fst (hi s))) = Toptica.writes (Toptica.calls s)) ->
  Toptica.writes (Toptica.calls (fst (Toptica.checked_set lo hi msg target v self)))
  = Toptica.writes (Toptica.calls self)
  \/ exists s1 s2 l h,
      lo self = (s1, inr l) /\ hi s1 = (s2, inr h) /\ Toptica.outside v l h = inr false.
Proof.
  intros Hlo Hhi. unfold Toptica.checked_set, bind.
  pose proof (Hlo self) as H1. destruct (lo self) as [s1 [e|l]]; cbn [fst] in H1;
    [left; exact H1|].
  pose proof (Hhi s1) as H2. destruct (hi s1) as [s2 [e|h]] eqn:Eh; cbn [fst] in H2;
    [left; cbn [fst]; congruence|].
  destruct (Toptica.outside v l h) as [e|[|]] eqn:Ho.
  - left. cbn [fst raise]. congruence.
  - left. cbn [fst raise]. congruence.
  - right. exists s1, s2, l, h. split; [reflexivity | split; [exact Eh | exact Ho]].
Qed.

End Toptica_validation.

(** C4, as the code has it: a value outside the inclusive range of an
    attribute is refused with a [ValueError] and no write is issued.  For the
    channel of a switch the range is fixed by the type of the switch and the
    value is refused before anything at all reaches the adapter: the switch
    is left as it was.  For the wavelength of a CTL laser and the current of
    a TA laser the range is not declared: the setter first asks the device
    for the limits (the current starts at 0 and only its upper limit is
    asked for), and when these reads return numbers and the value is outside
    them it raises the error, which names the limits; the client has then
    seen exactly the reads of the limits and no [set].  Whatever the reads
    do and whatever the value is, these two setters write only after the
    limits were read and the value was found inside them. *)
Theorem C4_no_write_out_of_range :
  (forall (A : Type) (Ad : Adapter A) (self : @Agiltron.AgiltronOpticalSwitch A)
          (value lo hi : Z),
      Agiltron._channel_range self = (lo, hi + 1)%Z ->
      (value < lo \/ hi < value)%Z ->
      exists msg, rejects (Agiltron.channel_set value) self (ValueError msg))
  /\ (forall (C : Type) (S : Session C) (H : Host) (self : Toptica.TopticaDLCPro C)
             (c c1 c2 : C) (q lo hi : Q),
         Toptica.client self = Some c ->
         Toptica.laser_type self = Some "CTL" ->
         sdk_get c "laser1:ctl:wavelength-min" = (c1, inr (VNum lo)) ->
         sdk_get c1 "laser1:ctl:wavelength-max" = (c2, inr (VNum hi)) ->
         (q < lo \/ hi < q)%Q ->
         exists self',
           Toptica.wavelength_set (VNum q) self
           = (self', inl (ValueError ("Wavelength must be between " ++ str_num lo
                                      ++ " nm and " ++ str_num hi ++ " nm")%string))
           /\ Toptica.calls self'
              = Toptica.calls self
                ++ [Toptica.CGet "laser1:ctl:wavelength-min" (inr (VNum lo));
                    Toptica.CGet "laser1:ctl:wavelength-max" (inr (VNum hi))]
           /\ Toptica.writes (Toptica.calls self') = Toptica.writes (Toptica.calls self))
  /\ (forall (C : Type) (S : Session C) (H : Host) (self : Toptica.TopticaDLCPro C)
             (c c1 : C) (q hi : Q),
         Toptica.client self = Some c ->
         Toptica.laser_type self = Some "TA" ->
         sdk_get c "ampcc1:channel1:current-clip-limit" = (c1, inr (VNum hi)) ->
         (q < 0 \/ hi < q)%Q ->
         exists self',
           Toptica.ta_current_set (VNum q) self
           = (self', inl (ValueError ("Current must be between 0 and " ++ str_num hi
                                      ++ " mA")%string))
           /\ Toptica.calls self'
              = Toptica.calls self
                ++ [Toptica.CGet "ampcc1:channel1:current-clip-limit" (inr (VNum hi))]
           /\ Toptica.writes (Toptica.calls self') = Toptica.writes (Toptica.calls self))
  /\ (forall (C : Type) (S : Session C) (H : Host) (self : Toptica.TopticaDLCPro C)
             (v : value),
         Toptica.writes (Toptica.calls (fst (Toptica.wavelength_set v self)))
         = Toptica.writes (Toptica.calls self)
         \/ exists s1 s2 l h,
             Toptica._get_parameter "laser1:ctl:wavelength-min" self = (s1, inr l)
             /\ Toptica._get_parameter "laser1:ctl:wavelength-max" s1 = (s2, inr h)
             /\ Toptica.outside v l h = inr false)
  /\ (forall (C : Type) (S : Session C) (H : Host) (self : Toptica.TopticaDLCPro C)
             (v : value),
         Toptica.writes (Toptica.calls (fst (Toptica.ta_current_set v self)))
         = Toptica.writes (Toptica.calls self)
         \/ exists s2 h,
             Toptica._get_parameter "ampcc1:channel1:current-clip-limit" self = (s2, inr h)
             /\ Toptica.outside v (VNum 0) h = inr false).
Proof.
  split; [|split; [|split; [|split]]].
  - intros A Ad self value lo hi Hr Hout.
    apply channel_set_rejects. rewrite Hr. apply in_range_false. lia.
  - intros C S H self c c1 c2 q lo hi Hc Ht Hlo Hhi Hout.
    destruct (wavelength_set_refused self Hc Ht Hlo Hhi Hout) as [self' [Hr Hcalls]].
    exists self'. split; [exact Hr|]. split; [exact Hcalls|].
    rewrite Hcalls, writes_app. simpl. apply app_nil_r.
  - intros C S H self c c1 q hi Hc Ht Hhi Hout.
    destruct (ta_current_set_refused self Hc Ht Hhi Hout) as [self' [Hr Hcalls]].
    exists self'. split; [exact Hr|]. split; [exact Hcalls|].
    rewrite Hcalls, writes_app. simpl. apply app_nil_r.
  - intros C S H self v. unfold Toptica.wavelength_set, bind.
    pose proof (only_for_state "CTL" self) as Hs.
    destruct (Toptica.only_for "CTL" self) as [s0 [e|[]]]; cbn [fst] in Hs; subst s0;
      [left; reflexivity|].
    apply checked_set_writes_validated; intros s; apply _get_parameter_writes.
  - intros C S H self v. unfold Toptica.ta_current_set, bind.
    pose proof (only_for_state "TA" self) as Hs.
    destruct (Toptica.only_for "TA" self) as [s0 [e|[]]]; cbn [fst] in Hs; subst s0;
      [left; reflexivity|].
    destruct (@checked_set_writes_validated C S H (ret (VNum 0))
                (Toptica._get_parameter "ampcc1:channel1:current-clip-limit")
                (fun _ h => ("Current must be between 0 and " ++ Toptica.py_str h ++ " mA")%string)
                "ampcc1:channel1:current-set" v self)
      as [Hw|[s1 [s2 [l [h [Hlo [Hhi Ho]]]]]]].
    + intros s. reflexivity.
    + intros s. apply _get_parameter_writes.
    + left. exact Hw.
    + right. unfold ret in Hlo. injection Hlo as <- <-. exists s2, h. split; assumption.
Qed.

Lemma C4_no_write_out_of_range_witness :
  (exists msg,
      rejects (Agiltron.channel_set 3) (Double.switch "1x2") (ValueError msg))
  /\ (exists self',
         Toptica.wavelength_set (VNum 1700) (Double.laser Double.ctl_laser)
         = (self', inl (ValueError "Wavelength must be between 1500/1 nm and 1600/1 nm"))
         /\ Toptica.writes (Toptica.calls self') = [])
  /\ (exists self',
         Toptica.ta_current_set (VNum 1200) (Double.laser Double.ta_laser)
         = (self', inl (ValueError "Current must be between 0 and 1000/1 mA"))
         /\ Toptica.writes (Toptica.calls self') = []).
Proof.
  destruct C4_no_write_out_of_range as [Hc [Hw [Ht _]]].
  split; [|split].
  - apply (Hc _ Double.queue_adapter (Double.switch "1x2") 3%Z 1%Z 2%Z); [reflexivity | lia].
  - destruct (Hw _ Double.table_client Double.fraction_host (Double.laser Double.ctl_laser)
                 Double.ctl_laser Double.ctl_laser Double.ctl_laser 1700%Q 1500%Q 1600%Q)
      as [self' [Hr [_ Hwr]]]; try reflexivity.
    { right. reflexivity. }
    exists self'. split; [exact Hr | exact Hwr].
  - destruct (Ht _ Double.table_client Double.fraction_host (Double.laser Double.ta_laser)
                 Double.ta_laser Double.ta_laser 1200%Q 1000%Q)
      as [self' [Hr [_ Hwr]]]; try reflexivity.
    { right. reflexivity. }
    exists self'. split; [exact Hr | exact Hwr].
Defined.

(** C4, as stated, fails: the wavelength 1700 nm is outside the limits 1500
    and 1600 the laser reports, and it is refused with a [ValueError] and
    never written; but two requests have gone to the device by then, the
    reads of the limits, so the value is not refused before any exchange with
    the device, and the range it is held against is not a declared one. *)
Lemma C4_reads_before_rejection_counterexample :
  (exists msg,
      snd (Toptica.wavelength_set (VNum 1700) (Double.laser Double.ctl_laser))
      = inl (ValueError msg))
  /\ Toptica.calls (fst (Toptica.wavelength_set (VNum 1700) (Double.laser Double.ctl_laser)))
     = Toptica.calls (Double.laser Double.ctl_laser)
       ++ [Toptica.CGet "laser1:ctl:wavelength-min" (inr (VNum 1500));
           Toptica.CGet "laser1:ctl:wavelength-max" (inr (VNum 1600))]
  /\ ~ (exists e,
          rejects (Toptica.wavelength_set (VNum 1700)) (Double.laser Double.ctl_laser) e).
Proof.
  split; [eexists; vm_compute; reflexivity|].
  split; [vm_compute; reflexivity|].
  intros [e He]. unfold rejects in He.
  apply (f_equal (fun r => List.length (Toptica.calls (fst r)))) in He.
  vm_compute in He. discriminate He.
Qed.

Example wavelength_in_range_is_written :
  Toptica.writes (Toptica.calls
    (fst (Toptica.wavelength_set (VNum 1555) (Double.laser Double.ctl_laser))))
  = [Toptica.CSet "laser1:ctl:wavelength-set" (VNum 1555) (inr tt)].
Proof. reflexivity. Qed.

(** ** Toptica DLC Pro: shutdown *)

Section Toptica_shutdown.
Context {C : Type} `{Session C} `{Host} `{Toptica.InstrumentBase C}.

(** [shutdown] returns whatever [close] does, and the handle is gone. *)
Lemma shutdown_clears (self : Toptica.TopticaDLCPro C) :
  base_shutdown_returns ->
  exists s1, Toptica.shutdown self = (s1, inr tt) /\ Toptica.client s1 = None.
Proof.
  intros Hb. unfold Toptica.shutdown.
  destruct (Toptica.client self) as [c|].
  - destruct (sdk_close c) as [c' r].
    destruct (Hb (Toptica.set_client None [] (Toptica.set_client (Some c') [Toptica.CClose r] self)))
      as [s1 [Hs [Hc _]]].
    exists s1. split; [exact Hs | exact Hc].
  - destruct (Hb (Toptica.set_client None [] self)) as [s1 [Hs [Hc _]]].
    exists s1. split; [exact Hs | exact Hc].
Qed.

(** Without a handle there is nothing to close. *)
Lemma shutdown_closed (self : Toptica.TopticaDLCPro C) :
  base_shutdown_returns ->
  Toptica.client self = None ->
  exists s2, Toptica.shutdown self = (s2, inr tt)
             /\ Toptica.client s2 = None
             /\ Toptica.calls s2 = Toptica.calls self.
Proof.
  intros Hb Hc. unfold Toptica.shutdown. rewrite Hc.
  destruct (Hb (Toptica.set_client None [] self)) as [s2 [Hs [Hc2 Hl]]].
  exists s2. split; [exact Hs|]. split; [exact Hc2|].
  rewrite Hl. simpl. apply app_nil_r.
Qed.

Lemma not_open (self : Toptica.TopticaDLCPro C) :
  Toptica.client self = None ->
  (forall p, rejects (Toptica.get_parameter p) self (ConnectionError "Connection not open"))
  /\ (forall p v, rejects (Toptica.set_parameter p v) self
                          (ConnectionError "Connection not open")).
Proof.
  intros Hc. unfold rejects, Toptica.get_parameter, Toptica.set_parameter,
    Toptica._get_parameter, Toptica._set_parameter.
  rewrite Hc. split; reflexivity.
Qed.

(** C9: [shutdown] completes, whether or not [close] raises, and leaves the
    client handle [None]; from then on [get_parameter] and [set_parameter]
    raise [ConnectionError("Connection not open")] with the instrument
    untouched and no call made; a second [shutdown] returns as well and calls
    nothing.  The [shutdown] of the base class is taken to return. *)
Theorem C9_shutdown (self : Toptica.TopticaDLCPro C) :
  base_shutdown_returns ->
  exists s1,
    Toptica.shutdown self = (s1, inr tt)
    /\ Toptica.client s1 = None
    /\ (forall p, rejects (Toptica.get_parameter p) s1 (ConnectionError "Connection not open"))
    /\ (forall p v, rejects (Toptica.set_parameter p v) s1
                            (ConnectionError "Connection not open"))
    /\ exists s2,
        Toptica.shutdown s1 = (s2, inr tt)
        /\ Toptica.client s2 = None
        /\ Toptica.calls s2 = Toptica.calls s1.
Proof.
  intros Hb. destruct (shutdown_clears self Hb) as [s1 [Hs Hc]].
  exists s1. split; [exact Hs|]. split; [exact Hc|].
  destruct (not_open s1 Hc) as [Hg Hset].
  split; [exact Hg|]. split; [exact Hset|].
  apply shutdown_closed; assumption.
Qed.

End Toptica_shutdown.

Lemma C9_shutdown_witness :
  exists s1,
    Toptica.shutdown (Double.laser Double.ctl_laser) = (s1, inr tt)
    /\ Toptica.client s1 = None
    /\ rejects (Toptica.get_parameter "emission") s1 (ConnectionError "Connection not open").
Proof.
  assert (Hb : @base_shutdown_returns (string -> result value) Double.quiet_base).
  { intros s. exists s. repeat split. }
  destruct (@C9_shutdown _ Double.table_client Double.fraction_host Double.quiet_base
              (Double.laser Double.ctl_laser) Hb)
    as [s1 [Hs [Hc [Hg _]]]].
  exists s1. split; [exact Hs|]. split; [exact Hc | apply Hg].
Defined.

Example shutdown_closes_once :
  Toptica.calls (fst (Toptica.shutdown (Double.laser Double.ctl_laser)))
  = [Toptica.COpen (inr tt); Toptica.CGet "laser1:type" (inr (VStr "CTL"));
     Toptica.CClose (inr tt)].
Proof. reflexivity. Qed.

(** ** Sorting by code points *)

Lemma ascii_compare_trans_le (a b c : ascii) :
  Ascii.compare a b <> Gt -> Ascii.compare b c <> Gt -> Ascii.compare a c <> Gt.
Proof.
  unfold Ascii.compare. rewrite !N.compare_le_iff. apply N.le_trans.
Qed.

Lemma lex_le_trans (a b c : string) : lex_le a b -> lex_le b c -> lex_le a c.
Proof.
  unfold lex_le, String.leb. revert b c.
  induction a as [|x a IH]; intros [|y b] [|z c]; simpl; try congruence.
  unfold Ascii.compare.
  destruct (N.compare_spec (N_of_ascii x) (N_of_ascii y)) as [Exy|Lxy|Gxy];
    destruct (N.compare_spec (N_of_ascii y) (N_of_ascii z)) as [Eyz|Lyz|Gyz];
    destruct (N.compare_spec (N_of_ascii x) (N_of_ascii z)) as [Exz|Lxz|Gxz];
    try congruence; try lia.
  apply IH.
Qed.

Lemma lex_le_total (a b : string) : lex_le a b \/ lex_le b a.
Proof. apply String.leb_total. Qed.

Lemma insert_sorted_perm (x : string) (l : list string) :
  Permutation (x :: l) (Toptica.insert_sorted x l).
Proof.
  induction l as [|y l IH]; simpl; [reflexivity|].
  destruct (String.leb x y); [reflexivity|].
  rewrite perm_swap. apply perm_skip. exact IH.
Qed.

Lemma sorted_perm (l : list string) : Permutation l (Toptica.sorted l).
Proof.
  induction l as [|x l IH]; simpl; [reflexivity|].
  rewrite <- insert_sorted_perm. apply perm_skip. exact IH.
Qed.

Lemma insert_sorted_strongly (x : string) (l : list string) :
  StronglySorted lex_le l -> StronglySorted lex_le (Toptica.insert_sorted x l).
Proof.
  induction 1 as [|y l Hs IH Hall]; simpl; [repeat constructor|].
  destruct (String.leb x y) eqn:E.
  - constructor; [constructor; assumption|].
    constructor; [exact E|].
    eapply Forall_impl; [|exact Hall]. intros z Hz. eapply lex_le_trans; eassumption.
  - constructor; [exact IH|].
    assert (Hyx : lex_le y x).
    { destruct (lex_le_total x y) as [Hxy|Hyx]; [unfold lex_le in Hxy; congruence | exact Hyx]. }
    eapply Permutation_Forall; [apply insert_sorted_perm|].
    constructor; assumption.
Qed.

(** [sorted] sorts. *)
Lemma sorted_strongly (l : list string) : StronglySorted lex_le (Toptica.sorted l).
Proof.
  induction l as [|x l IH]; simpl; [constructor | apply insert_sorted_strongly; exact IH].
Qed.

(** What [sorted(list(set(l)))] holds: the elements of [l], once each. *)
Lemma sorted_list_set_in (l : list string) (x : string) :
  In x (Toptica.sorted (Toptica.list_set l)) <-> In x l.
Proof.
  unfold Toptica.list_set. split.
  - intros Hx. apply (nodup_In string_dec).
    eapply Permutation_in; [symmetry; apply sorted_perm | exact Hx].
  - intros Hx. apply (nodup_In string_dec) in Hx.
    eapply Permutation_in; [apply sorted_perm | exact Hx].
Qed.

Lemma sorted_list_set_NoDup (l : list string) :
  NoDup (Toptica.sorted (Toptica.list_set l)).
Proof.
  eapply Permutation_NoDup; [apply sorted_perm|]. apply NoDup_nodup.
Qed.

(** Two sorted lists with the same elements, none repeated, are the same
    list: the order in which the set is listed does not show in the result. *)
Lemma strongly_sorted_unique (l1 l2 : list string) :
  StronglySorted lex_le l1 -> StronglySorted lex_le l2 ->
  NoDup l1 -> NoDup l2 -> (forall x, In x l1 <-> In x l2) -> l1 = l2.
Proof.
  intros H1. revert l2. induction H1 as [|x l1 Hs1 IH Hall1]; intros l2 H2 Hn1 Hn2 Hin.
  - destruct l2 as [|y l2]; [reflexivity|]. exfalso. apply (Hin y). left. reflexivity.
  - destruct H2 as [|y l2 Hs2 Hall2].
    + exfalso. apply (Hin x). left. reflexivity.
    + inversion Hn1 as [|? ? Hx1 Hn1']; inversion Hn2 as [|? ? Hy2 Hn2']; subst.
      assert (Hxy : x = y).
      { assert (Hx : In x (y :: l2)) by (apply Hin; left; reflexivity).
        assert (Hy : In y (x :: l1)) by (apply Hin; left; reflexivity).
        destruct Hx as [Hx|Hx]; [congruence|]. destruct Hy as [Hy|Hy]; [congruence|].
        rewrite Forall_forall in Hall1, Hall2.
        apply String.leb_antisym; [apply Hall1 | apply Hall2]; assumption. }
      subst y. f_equal. apply IH; try assumption.
      intros z. specialize (Hin z). simpl in Hin. split; intros Hz.
      * destruct Hin as [Hin _]. destruct (Hin (or_intror Hz)) as [->|]; [contradiction | assumption].
      * destruct Hin as [_ Hin]. destruct (Hin (or_intror Hz)) as [->|]; [contradiction | assumption].
Qed.

(** Whatever order the set is listed in, sorting gives the list of the
    model. *)
Lemma sorted_any_listing (l listing : list string) :
  NoDup listing -> (forall x, In x listing <-> In x l) ->
  Toptica.sorted listing = Toptica.sorted (Toptica.list_set l).
Proof.
  intros Hn Hin. apply strongly_sorted_unique.
  - apply sorted_strongly.
  - apply sorted_strongly.
  - eapply Permutation_NoDup; [apply sorted_perm | exact Hn].
  - apply sorted_list_set_NoDup.
  - intros x. rewrite sorted_list_set_in, <- Hin. split.
    + apply Permutation_in. symmetry. apply sorted_perm.
    + apply Permutation_in. apply sorted_perm.
Qed.

(** ** Toptica DLC Pro: discovery *)

Lemma accepted_in_probed (evs : list Toptica.call) (x : string) :
  In x (Toptica.accepted evs) -> In x (Toptica.probed evs).
Proof.
  induction evs as [|[r|p [e|v]|p v r|r] evs IH]; simpl; auto.
  intros [->|Hx]; auto.
Qed.

(** The accepted names keep the order of the probed ones. *)
Lemma accepted_strongly_sorted (evs : list Toptica.call) :
  StronglySorted lex_le (Toptica.probed evs) -> StronglySorted lex_le (Toptica.accepted evs).
Proof.
  induction evs as [|[r|p [e|v]|p v r|r] evs IH]; simpl; auto.
  - intros Hs. inversion Hs; subst; auto.
  - intros Hs. inversion Hs as [|? ? Hs' Hall]; subst. constructor; [auto|].
    rewrite Forall_forall in *. intros x Hx. apply Hall, accepted_in_probed, Hx.
Qed.

Lemma accepted_NoDup (evs : list Toptica.call) :
  NoDup (Toptica.probed evs) -> NoDup (Toptica.accepted evs).
Proof.
  induction evs as [|[r|p [e|v]|p v r|r] evs IH]; simpl; auto.
  - intros Hn. inversion Hn; subst; auto.
  - intros Hn. inversion Hn as [|? ? Hp Hn']; subst. constructor; [|auto].
    intro Hx. apply Hp, accepted_in_probed, Hx.
Qed.

(** A name is accepted exactly when a read of it returned. *)
Lemma accepted_iff (evs : list Toptica.call) (x : string) :
  In x (Toptica.accepted evs) <-> exists v, In (Toptica.CGet x (inr v)) evs.
Proof.
  induction evs as [|c evs IH]; simpl.
  - split; [tauto | intros [v []]].
  - rewrite in_app_iff, IH. split.
    + intros [Hx|[v Hv]]; [|eauto].
      destruct c as [r|p [e|v]|p v r|r]; simpl in Hx; try tauto.
      destruct Hx as [->|[]]. eauto.
    + intros [v [->|Hv]]; [left; simpl; auto | right; eauto].
Qed.

Lemma probed_in (evs : list Toptica.call) (p : string) (r : result value) :
  In (Toptica.CGet p r) evs -> In p (Toptica.probed evs).
Proof.
  induction evs as [|c evs IH]; simpl; [tauto|].
  intros [->|Hin]; apply in_or_app; [left; simpl; auto | right; auto].
Qed.

(** The candidates hold no name twice and are sorted; the reserved key is
    not among them, nor in the default list. *)
Section Toptica_lists.
Context {C : Type}.

Lemma enhanced_strongly_sorted (self : Toptica.TopticaDLCPro C) :
  StronglySorted lex_le (Toptica._get_enhanced_parameter_list self).
Proof. apply sorted_strongly. Qed.

Lemma enhanced_NoDup (self : Toptica.TopticaDLCPro C) :
  NoDup (Toptica._get_enhanced_parameter_list self).
Proof. apply sorted_list_set_NoDup. Qed.

Lemma default_NoDup (self : Toptica.TopticaDLCPro C) :
  NoDup (Toptica._get_default_parameter_list self).
Proof.
  unfold Toptica._get_default_parameter_list.
  destruct (Toptica.is_type "CTL" self); [|destruct (Toptica.is_type "TA" self)];
    (match goal with |- NoDup ?l => rewrite <- (eq_refl : nodup string_dec l = l) end);
    apply NoDup_nodup.
Qed.

Lemma not_in_by_eqb (x : string) (l : list string) :
  existsb (String.eqb x) l = false -> ~ In x l.
Proof.
  intros He Hin. assert (Ht : existsb (String.eqb x) l = true).
  { apply existsb_exists. exists x. split; [exact Hin | apply String.eqb_refl]. }
  congruence.
Qed.

Lemma default_no_metadata (self : Toptica.TopticaDLCPro C) :
  ~ In "_metadata" (Toptica._get_default_parameter_list self).
Proof.
  unfold Toptica._get_default_parameter_list.
  destruct (Toptica.is_type "CTL" self); [|destruct (Toptica.is_type "TA" self)];
    apply not_in_by_eqb; reflexivity.
Qed.

Lemma enhanced_no_metadata (self : Toptica.TopticaDLCPro C) :
  ~ In "_metadata" (Toptica._get_enhanced_parameter_list self).
Proof.
  unfold Toptica._get_enhanced_parameter_list. rewrite sorted_list_set_in.
  unfold Toptica._get_default_parameter_list.
  destruct (Toptica.is_type "CTL" self); [|destruct (Toptica.is_type "TA" self)];
    apply not_in_by_eqb; reflexivity.
Qed.

End Toptica_lists.

Section Toptica_discovery.
Context {C : Type} `{Session C}.

(** The loop reads every candidate, in order, whatever the reads before
    did, and returns the names whose read returned. *)
Lemma probe_spec (cands : list string) :
  forall (avail : list string) (self : Toptica.TopticaDLCPro C) (c : C),
    Toptica.client self = Some c ->
    exists self' evs,
      Toptica.probe cands avail self = (self', inr (avail ++ Toptica.accepted evs))
      /\ Toptica.calls self' = Toptica.calls self ++ evs
      /\ Toptica.probed evs = cands
      /\ Toptica.writes evs = []
      /\ same_identity self self'.
Proof.
  induction cands as [|p cands IH]; intros avail self c Hc.
  - exists self, []. simpl. unfold ret. rewrite !app_nil_r.
    repeat split; eauto.
  - cbn [Toptica.probe]. unfold Toptica.client_get. rewrite Hc.
    destruct (sdk_get c p) as [c' r].
    set (self1 := Toptica.set_client (Some c') [Toptica.CGet p r] self).
    assert (Hc1 : Toptica.client self1 = Some c') by reflexivity.
    assert (Hstep : exists self' evs,
               (match r with
                | inr _ => Toptica.probe cands (avail ++ [p]) self1
                | inl _ => Toptica.probe cands avail self1
                end)
               = (self', inr (avail ++ Toptica.accepted (Toptica.CGet p r :: evs)))
               /\ Toptica.calls self' = Toptica.calls self1 ++ evs
               /\ Toptica.probed evs = cands
               /\ Toptica.writes evs = []
               /\ same_identity self1 self').
    { destruct r as [e|v].
      - destruct (IH avail self1 c' Hc1) as [self' [evs Hs]]. exists self', evs. exact Hs.
      - destruct (IH (avail ++ [p]) self1 c' Hc1) as [self' [evs [Hp Hs]]].
        exists self', evs. split; [|exact Hs].
        rewrite Hp. simpl. rewrite <- app_assoc. reflexivity. }
    destruct Hstep as [self' [evs [Hp [Hcalls [Hprobed [Hw Hid]]]]]].
    exists self', (Toptica.CGet p r :: evs).
    split.
    { destruct r as [e|v]; [destruct (is_decop e)|]; exact Hp. }
    split.
    { rewrite Hcalls. subst self1. simpl. rewrite <- app_assoc. reflexivity. }
    split; [simpl; congruence|].
    split; [exact Hw|].
    exact Hid.
Qed.

(** Discovery on an open connection. *)
Lemma discovery_spec (self : Toptica.TopticaDLCPro C) (c : C) :
  Toptica.client self = Some c ->
  exists self' evs,
    Toptica.get_all_supported_parameters self = (self', inr (Toptica.accepted evs))
    /\ Toptica.calls self' = Toptica.calls self ++ evs
    /\ Toptica.probed evs = Toptica._get_enhanced_parameter_list self
    /\ Toptica.writes evs = []
    /\ same_identity self self'.
Proof.
  intros Hc. unfold Toptica.get_all_supported_parameters, try_except, bind. rewrite Hc.
  destruct (probe_spec (Toptica._get_enhanced_parameter_list self) [] self Hc)
    as [self' [evs [Hp Hs]]].
  exists self', evs. rewrite Hp. split; [reflexivity | exact Hs].
Qed.

End Toptica_discovery.

Section Toptica_discovery_claims.
Context {C : Type} `{Session C}.

(** C1, as the code has it: on an open connection discovery never raises.
    Every candidate is read once, in order, whatever the reads before it did;
    a read that raises, be it the device's rejection, a failure of the
    connection or anything else, only drops that candidate.  The list
    returned holds exactly the candidates whose read returned, nothing is
    written, and the rejections are not recorded in it.  Without a client the
    call raises [ConnectionError] before any read. *)
Theorem C1_discovery_absorbs_every_failure (self : Toptica.TopticaDLCPro C) :
  (forall c, Toptica.client self = Some c ->
     exists self' evs,
       Toptica.get_all_supported_parameters self = (self', inr (Toptica.accepted evs))
       /\ Toptica.calls self' = Toptica.calls self ++ evs
       /\ Toptica.probed evs = Toptica._get_enhanced_parameter_list self
       /\ Toptica.writes evs = []
       /\ (forall p, In p (Toptica.accepted evs) <-> exists v, In (Toptica.CGet p (inr v)) evs)
       /\ (forall p e, In (Toptica.CGet p (inl e)) evs -> ~ In p (Toptica.accepted evs)))
  /\ (Toptica.client self = None ->
      rejects Toptica.get_all_supported_parameters self
              (ConnectionError "Connection not open")).
Proof.
  split.
  - intros c Hc.
    destruct (discovery_spec self Hc) as [self' [evs [Hr [Hcalls [Hp [Hw _]]]]]].
    exists self', evs. repeat (split; [assumption|]). split.
    + intros p. apply accepted_iff.
    + intros p e Hin Hacc. apply accepted_iff in Hacc as [v Hv].
      assert (Hn : NoDup (Toptica.probed evs)) by (rewrite Hp; apply enhanced_NoDup).
      clear - Hin Hv Hn. induction evs as [|c evs IH]; [destruct Hin|].
      simpl in Hn. destruct Hin as [->|Hin]; destruct Hv as [Hv|Hv]; try discriminate.
      * simpl in Hn. inversion Hn as [|? ? Hx _]; subst. apply Hx. eapply probed_in, Hv.
      * subst c. simpl in Hn. inversion Hn as [|? ? Hx _]; subst. apply Hx. eapply probed_in, Hin.
      * apply IH; try assumption.
        destruct c as [r|q [e'|v']|q v' r|r]; simpl in Hn; try assumption;
          inversion Hn; assumption.
  - intros Hc. unfold rejects, Toptica.get_all_supported_parameters. rewrite Hc. reflexivity.
Qed.

(** C8: the list discovery returns on an open connection is in code-point
    order: each entry is at most the entry after it. *)
Theorem C8_discovery_sorted (self : Toptica.TopticaDLCPro C) (c : C) :
  Toptica.client self = Some c ->
  exists self' l,
    Toptica.get_all_supported_parameters self = (self', inr l)
    /\ Sorted lex_le l.
Proof.
  intros Hc. destruct (discovery_spec self Hc) as [self' [evs [Hr [_ [Hp _]]]]].
  exists self', (Toptica.accepted evs). split; [exact Hr|].
  apply StronglySorted_Sorted, accepted_strongly_sorted.
  rewrite Hp. apply enhanced_strongly_sorted.
Qed.

End Toptica_discovery_claims.

(** ** Toptica DLC Pro: reading all parameters *)

Lemma keys_app {V} (d1 d2 : dict V) : keys (d1 ++ d2) = keys d1 ++ keys d2.
Proof. apply map_app. Qed.

(** Reads of fresh, distinct names add their keys in order. *)
Lemma keys_record_gets (evs : list Toptica.call) :
  forall d, NoDup (keys d ++ Toptica.probed evs) ->
            keys (record_gets evs d) = keys d ++ Toptica.probed evs.
Proof.
  induction evs as [|c evs IH]; intros d Hn; simpl.
  - rewrite app_nil_r. reflexivity.
  - destruct c as [r|p r|p v r|r]; simpl in *; try (apply IH; exact Hn).
    assert (Hp : ~ In p (keys d)).
    { intro Hin. apply NoDup_remove_2 in Hn. apply Hn, in_or_app. left. exact Hin. }
    unfold record_gets in *. rewrite IH.
    + rewrite dict_set_fresh by exact Hp. rewrite keys_app, <- app_assoc. reflexivity.
    + rewrite dict_set_fresh by exact Hp. rewrite keys_app, <- app_assoc. exact Hn.
Qed.

Lemma record_gets_untouched (evs : list Toptica.call) (p : string) :
  forall d, ~ In p (Toptica.probed evs) -> dict_get p (record_gets evs d) = dict_get p d.
Proof.
  induction evs as [|c evs IH]; intros d Hn; [reflexivity|].
  destruct c as [r|q r|q v r|r]; simpl in *; try (apply IH; exact Hn).
  unfold record_gets in *. rewrite IH by tauto.
  apply dict_get_set_other. intro Hq. apply Hn. left. exact Hq.
Qed.

(** When no name is read twice, the entry under a name is the outcome of its
    read. *)
Lemma record_gets_lookup (evs : list Toptica.call) (p : string) (r : result value) :
  forall d, NoDup (Toptica.probed evs) -> In (Toptica.CGet p r) evs ->
            dict_get p (record_gets evs d) = Some (entry_of_result r).
Proof.
  induction evs as [|c evs IH]; intros d Hn Hin; [destruct Hin|].
  destruct Hin as [->|Hin].
  - simpl in Hn. inversion Hn as [|? ? Hp _]; subst.
    change (record_gets (Toptica.CGet p r :: evs) d)
      with (record_gets evs (dict_set p (entry_of_result r) d)).
    rewrite record_gets_untouched by exact Hp. apply dict_get_set_same.
  - assert (Hn' : NoDup (Toptica.probed evs)).
    { destruct c as [r'|q [e'|v']|q v' r'|r']; simpl in Hn; try assumption;
        inversion Hn; assumption. }
    destruct c as [r'|q r'|q v' r'|r']; simpl; apply IH; assumption.
Qed.

Section Toptica_retrieval.
Context {C : Type} `{Session C} `{Host}.

(** The loop reads every name, in order, and keeps the outcome of each read
    as long as reads raise nothing but the SDK's error. *)
Lemma retrieve_spec (names : list string) :
  raises_only_decop ->
  forall (d : dict Toptica.entry) (self : Toptica.TopticaDLCPro C) (c : C),
    Toptica.client self = Some c ->
    exists self' evs,
      Toptica.retrieve names d self = (self', inr (record_gets evs d))
      /\ Toptica.calls self' = Toptica.calls self ++ evs
      /\ Toptica.probed evs = names
      /\ Toptica.writes evs = []
      /\ same_identity self self'.
Proof.
  intros Hd. induction names as [|p names IH]; intros d self c Hc.
  - exists self, []. simpl. unfold ret. rewrite app_nil_r. repeat split; eauto.
  - cbn [Toptica.retrieve]. unfold Toptica.client_get. rewrite Hc.
    destruct (sdk_get c p) as [c' r] eqn:Hg.
    set (self1 := Toptica.set_client (Some c') [Toptica.CGet p r] self).
    assert (Hc1 : Toptica.client self1 = Some c') by reflexivity.
    destruct (IH (dict_set p (entry_of_result r) d) self1 c' Hc1)
      as [self' [evs [Hr [Hcalls [Hp [Hw Hid]]]]]].
    exists self', (Toptica.CGet p r :: evs). split.
    { destruct r as [e|v]; [|exact Hr].
      rewrite (Hd c p e) by (rewrite Hg; reflexivity). exact Hr. }
    split.
    { rewrite Hcalls. subst self1. simpl. rewrite <- app_assoc. reflexivity. }
    split; [simpl; congruence|].
    split; [exact Hw|].
    exact Hid.
Qed.

(** The tag of a returned dictionary says which mode was asked for. *)
Lemma metadata_tag (dyn : bool) (self self2 : Toptica.TopticaDLCPro C) (d : dict Toptica.entry) :
  Toptica.get_all_parameters dyn self = (self2, inr d) ->
  exists m, dict_get "_metadata" d = Some (Toptica.EMeta m)
            /\ Toptica.discovery_method m = (if dyn then "dynamic" else "predefined")
            /\ Toptica.meta_laser_type m = Toptica.laser_type self2.
Proof.
  unfold Toptica.get_all_parameters, bind.
  destruct (Toptica.client self); [|discriminate].
  destruct (Toptica.parameter_names dyn self) as [s1 [e|names]]; [discriminate|].
  destruct (Toptica.retrieve names [] s1) as [s2 [e|ps]]; [discriminate|].
  intros Heq. inversion Heq; subst. eexists. split; [apply dict_get_set_same|].
  split; reflexivity.
Qed.

(** The names [get_all_parameters] goes through: the probed list when
    discovery is asked for, the default list otherwise. *)
Lemma parameter_names_spec (dyn : bool) (self : Toptica.TopticaDLCPro C) (c : C) :
  Toptica.client self = Some c ->
  exists self1 names,
    Toptica.parameter_names dyn self = (self1, inr names)
    /\ same_identity self self1
    /\ NoDup names
    /\ ~ In "_metadata" names
    /\ (dyn = true ->
        Toptica.get_all_supported_parameters self = (self1, inr names))
    /\ (dyn = false ->
        self1 = self /\ names = Toptica._get_default_parameter_list self).
Proof.
  intros Hc. unfold Toptica.parameter_names. destruct dyn.
  - destruct (discovery_spec self Hc) as [self1 [evs [Hr [_ [Hp [_ Hid]]]]]].
    exists self1, (Toptica.accepted evs). unfold try_except. rewrite Hr.
    split; [reflexivity|]. split; [exact Hid|]. split.
    { apply accepted_NoDup. rewrite Hp. apply enhanced_NoDup. }
    split.
    { intro Hin. apply accepted_in_probed in Hin. rewrite Hp in Hin.
      exact (enhanced_no_metadata self Hin). }
    split; [reflexivity | discriminate].
  - exists self, (Toptica._get_default_parameter_list self).
    split; [reflexivity|]. split; [repeat split; eauto|].
    split; [apply default_NoDup|]. split; [apply default_no_metadata|].
    split; [discriminate | auto].
Qed.

End Toptica_retrieval.

Section Toptica_all_parameters.
Context {C : Type} `{Session C} `{Host}.

(** C10: on an open connection whose reads raise nothing but the SDK's
    error, [get_all_parameters] returns a dictionary.  Each name of the list
    it goes through is read once, in order; the keys of the dictionary are
    those names followed by ["_metadata"]; under each name stands the outcome
    of its read, the value or the text ["ERROR: ..."] of the error; and the
    [parameter_count] of the metadata is the number of names. *)
Theorem C10_every_name_has_an_entry (dyn : bool) (self : Toptica.TopticaDLCPro C) (c : C) :
  Toptica.client self = Some c ->
  raises_only_decop ->
  exists self1 names self2 evs d m,
    Toptica.parameter_names dyn self = (self1, inr names)
    /\ Toptica.get_all_parameters dyn self = (self2, inr d)
    /\ Toptica.calls self2 = Toptica.calls self1 ++ evs
    /\ Toptica.probed evs = names
    /\ keys d = names ++ ["_metadata"]
    /\ (forall p r, In (Toptica.CGet p r) evs -> dict_get p d = Some (entry_of_result r))
    /\ dict_get "_metadata" d = Some (Toptica.EMeta m)
    /\ Toptica.parameter_count m = List.length names.
Proof.
  intros Hc Hd.
  destruct (parameter_names_spec dyn self Hc)
    as [self1 [names [Hpn [[_ [_ [_ [c1 Hc1]]]] [Hnd [Hmeta _]]]]]].
  destruct (retrieve_spec names Hd [] self1 Hc1)
    as [self2 [evs [Hr [Hcalls [Hp [_ _]]]]]].
  assert (Hkeys : keys (record_gets evs []) = names).
  { rewrite keys_record_gets; simpl; rewrite Hp; [reflexivity | exact Hnd]. }
  eexists self1, names, self2, evs, _, _.
  split; [exact Hpn|]. split.
  { unfold Toptica.get_all_parameters, bind. rewrite Hc, Hpn, Hr. reflexivity. }
  split; [exact Hcalls|]. split; [exact Hp|]. split.
  { rewrite dict_set_fresh by (rewrite Hkeys; exact Hmeta).
    rewrite keys_app, Hkeys. reflexivity. }
  split.
  { intros p r Hin. rewrite dict_get_set_other.
    - apply record_gets_lookup; [rewrite Hp; exact Hnd | exact Hin].
    - intros <-. apply Hmeta. rewrite <- Hp. eapply probed_in, Hin. }
  split; [apply dict_get_set_same | reflexivity].
Qed.

(** C3, as the code has it: a read that raises while the candidates are
    probed does not end the probing.  Every candidate is read, and the list
    returned holds every candidate whose read returned, those after the
    failure as well as those before it.  [get_all_parameters] goes through
    that list when discovery is asked for and through the default list
    otherwise, and the tag in the metadata of the dictionary it returns is
    [dynamic] in the first case and [predefined] in the second. *)
Theorem C3_probing_goes_on (self : Toptica.TopticaDLCPro C) (c : C) :
  Toptica.client self = Some c ->
  exists self1 evs,
    Toptica.get_all_supported_parameters self = (self1, inr (Toptica.accepted evs))
    /\ Toptica.calls self1 = Toptica.calls self ++ evs
    /\ Toptica.probed evs = Toptica._get_enhanced_parameter_list self
    /\ Toptica.parameter_names true self = (self1, inr (Toptica.accepted evs))
    /\ Toptica.parameter_names false self
       = (self, inr (Toptica._get_default_parameter_list self))
    /\ forall dyn self2 d,
        Toptica.get_all_parameters dyn self = (self2, inr d) ->
        exists m, dict_get "_metadata" d = Some (Toptica.EMeta m)
                  /\ Toptica.discovery_method m = (if dyn then "dynamic" else "predefined").
Proof.
  intros Hc. destruct (discovery_spec self Hc) as [self1 [evs [Hr [Hcalls [Hp _]]]]].
  exists self1, evs. split; [exact Hr|]. split; [exact Hcalls|]. split; [exact Hp|].
  split; [unfold Toptica.parameter_names, try_except; rewrite Hr; reflexivity|].
  split; [reflexivity|].
  intros dyn self2 d Hg. destruct (metadata_tag dyn self Hg) as [m [Hm [Ht _]]].
  exists m. split; assumption.
Qed.

End Toptica_all_parameters.

(** ** The claims on test doubles *)

Example unknown_candidates_probed :
  Toptica._get_enhanced_parameter_list (Double.laser (Double.dl_pro (DecopError "unknown")))
  = unknown_candidates.
Proof. vm_compute. reflexivity. Qed.

Lemma C1_discovery_absorbs_every_failure_witness :
  exists self' evs,
    Toptica.get_all_supported_parameters
      (Double.laser (Double.dl_pro (TransportError "connection lost")))
    = (self', inr (Toptica.accepted evs))
    /\ Toptica.probed evs = unknown_candidates.
Proof.
  destruct (@C1_discovery_absorbs_every_failure _ Double.table_client
              (Double.laser (Double.dl_pro (TransportError "connection lost"))))
    as [Hopen _].
  assert (Hc : Toptica.client (Double.laser (Double.dl_pro (TransportError "connection lost")))
               = Some (Double.dl_pro (TransportError "connection lost")))
    by (vm_compute; reflexivity).
  destruct (Hopen _ Hc) as [self' [evs [Hr [_ [Hp _]]]]].
  exists self', evs. split; [exact Hr|]. rewrite Hp. vm_compute. reflexivity.
Defined.

(** C1, as stated, fails: the read of the third candidate fails at the level
    of the connection, yet discovery raises nothing and returns the seven
    other candidates. *)
Lemma C1_transport_fault_counterexample :
  nth_error (Toptica._get_enhanced_parameter_list
               (Double.laser (Double.dl_pro (TransportError "connection lost")))) 2
  = Some "fw:version"
  /\ Double.dl_pro (TransportError "connection lost") "fw:version"
     = inl (TransportError "connection lost")
  /\ snd (Toptica.get_all_supported_parameters
            (Double.laser (Double.dl_pro (TransportError "connection lost"))))
     = inr [ "cc1:board-temp"; "emission"; "laser1:type"; "system:model";
             "system:serial-number"; "system:uptime"; "tc1:board-temp" ]
  /\ ~ (exists e, snd (Toptica.get_all_supported_parameters
                         (Double.laser (Double.dl_pro (TransportError "connection lost"))))
                  = inl e).
Proof.
  split; [vm_compute; reflexivity|]. split; [vm_compute; reflexivity|].
  split; [vm_compute; reflexivity|].
  intros [e He]. vm_compute in He. discriminate He.
Qed.

Lemma C3_probing_goes_on_witness :
  exists self1 evs,
    Toptica.get_all_supported_parameters
      (Double.laser (Double.dl_pro (OtherException "internal error")))
    = (self1, inr (Toptica.accepted evs))
    /\ Toptica.probed evs = unknown_candidates
    /\ Toptica.parameter_names true
         (Double.laser (Double.dl_pro (OtherException "internal error")))
       = (self1, inr (Toptica.accepted evs)).
Proof.
  assert (Hc : Toptica.client (Double.laser (Double.dl_pro (OtherException "internal error")))
               = Some (Double.dl_pro (OtherException "internal error")))
    by (vm_compute; reflexivity).
  destruct (@C3_probing_goes_on _ Double.table_client Double.fraction_host
              (Double.laser (Double.dl_pro (OtherException "internal error"))) _ Hc)
    as [self1 [evs [Hr [_ [Hp [Hn _]]]]]].
  exists self1, evs. split; [exact Hr|]. split; [|exact Hn].
  rewrite Hp. vm_compute. reflexivity.
Defined.

(** C3, as stated, fails: the read of the third candidate raises an error
    that is neither the device's rejection nor a failure of the connection;
    the set built so far holds two names, and discovery returns seven. *)
Lemma C3_partial_set_counterexample :
  nth_error (Toptica._get_enhanced_parameter_list
               (Double.laser (Double.dl_pro (OtherException "internal error")))) 2
  = Some "fw:version"
  /\ Double.dl_pro (OtherException "internal error") "fw:version"
     = inl (OtherException "internal error")
  /\ snd (Toptica.get_all_supported_parameters
            (Double.laser (Double.dl_pro (OtherException "internal error"))))
     = inr [ "cc1:board-temp"; "emission"; "laser1:type"; "system:model";
             "system:serial-number"; "system:uptime"; "tc1:board-temp" ]
  /\ snd (Toptica.get_all_supported_parameters
            (Double.laser (Double.dl_pro (OtherException "internal error"))))
     <> inr [ "cc1:board-temp"; "emission" ].
Proof.
  split; [vm_compute; reflexivity|]. split; [vm_compute; reflexivity|].
  split; [vm_compute; reflexivity|].
  intros He. vm_compute in He. discriminate He.
Qed.

Lemma C8_discovery_sorted_witness :
  exists self' l,
    Toptica.get_all_supported_parameters (Double.laser Double.ctl_laser) = (self', inr l)
    /\ Sorted lex_le l.
Proof.
  apply (@C8_discovery_sorted _ Double.table_client (Double.laser Double.ctl_laser)
           Double.ctl_laser).
  vm_compute. reflexivity.
Defined.

Example ctl_discovery :
  snd (Toptica.get_all_supported_parameters (Double.laser Double.ctl_laser))
  = inr [ "cc1:board-temp"; "emission"; "fw:version"; "laser1:ctl:state";
          "laser1:ctl:wavelength-act"; "laser1:ctl:wavelength-max";
          "laser1:ctl:wavelength-min"; "laser1:ctl:wavelength-set";
          "laser1:dl:cc:current-act"; "laser1:dl:cc:current-clip";
          "laser1:dl:cc:current-set"; "laser1:dl:pc:voltage-max";
          "laser1:dl:pc:voltage-min"; "laser1:dl:tc:temp-act"; "laser1:dl:tc:temp-set";
          "laser1:type"; "system:model"; "system:serial-number";
          "system:uptime"; "tc1:board-temp" ].
Proof. vm_compute. reflexivity. Qed.

Lemma C10_every_name_has_an_entry_witness :
  exists self2 d m,
    @Toptica.get_all_parameters unit (Double.fixed_client Double.ctl_laser)
      Double.fraction_host false (Double.fixed_laser Double.ctl_laser)
    = (self2, inr d)
    /\ List.length (keys d) = 13
    /\ dict_get "laser1:scan:offset" d = Some (Toptica.EValue (VStr "ERROR: not available"))
    /\ dict_get "_metadata" d = Some (Toptica.EMeta m)
    /\ Toptica.parameter_count m = 12.
Proof.
  assert (Hd : @raises_only_decop unit (Double.fixed_client Double.ctl_laser)).
  { intros c p e. simpl. unfold Double.ctl_laser.
    repeat match goal with
           | |- context [String.eqb ?a ?b] => destruct (String.eqb a b)
           end; intros [=]; subst; reflexivity. }
  assert (Hc : Toptica.client (Double.fixed_laser Double.ctl_laser) = Some tt)
    by (vm_compute; reflexivity).
  destruct (@C10_every_name_has_an_entry unit (Double.fixed_client Double.ctl_laser)
              Double.fraction_host false (Double.fixed_laser Double.ctl_laser) tt Hc Hd)
    as [self1 [names [self2 [evs [d [m [Hn [Hg [_ [_ [Hk [_ [Hm Hcount]]]]]]]]]]]]].
  exists self2, d, m. split; [exact Hg|].
  assert (Hnames : List.length names = 12).
  { vm_compute in Hn. injection Hn as _ Hn. rewrite <- Hn. reflexivity. }
  split; [rewrite Hk, length_app, Hnames; reflexivity|].
  split; [|split; [exact Hm | rewrite Hcount; exact Hnames]].
  vm_compute in Hg. injection Hg as _ Hg. rewrite <- Hg. vm_compute. reflexivity.
Defined.

Example dynamic_count :
  option_map (fun d => List.length (keys d))
    (match snd (@Toptica.get_all_parameters unit (Double.fixed_client Double.ctl_laser)
                  Double.fraction_host true (Double.fixed_laser Double.ctl_laser))
     with inr d => Some d | inl _ => None end)
  = Some 21.
Proof. vm_compute. reflexivity. Qed.

(** * Further properties of the drivers *)

(** ** Toptica DLC Pro: the properties of one laser type *)

Section Toptica_properties.
Context {C : Type} `{Session C} `{Host}.

(** On a laser that is not a TA, every property of the TA laser raises the
    error of the type guard and leaves the instrument as it was: nothing is
    read and nothing is written. *)
Theorem ta_only_gate (self : Toptica.TopticaDLCPro C) :
  Toptica.laser_type self <> Some "TA" -> ta_only_rejected self.
Proof.
  intros Hne. pose proof (only_for_mismatch self Hne) as Hg.
  unfold ta_only_rejected, rejects, Toptica.ta_current, Toptica.ta_current_set,
    Toptica.ta_current_actual, Toptica.ta_current_limit, Toptica.ta_temperature,
    Toptica.ta_temperature_setpoint, Toptica.ta_temperature_setpoint_set,
    Toptica.ta_temperature_limits, bind.
  rewrite Hg. repeat split.
Qed.

Lemma _get_parameter_outcome (self : Toptica.TopticaDLCPro C) (c c' : C) (p : string)
      (r : result value) :
  Toptica.client self = Some c ->
  sdk_get c p = (c', r) ->
  Toptica._get_parameter p self
  = (Toptica.set_client (Some c') [Toptica.CGet p r] self,
     match r with
     | inr v => inr v
     | inl e => inl (surfaced (fun m => "Error retrieving parameter " ++ p ++ m)%string e)
     end).
Proof.
  intros Hc Hg. unfold Toptica._get_parameter, try_except, Toptica.client_get, surfaced.
  rewrite Hc, Hg. destruct r as [e|v]; [|reflexivity].
  destruct (is_decop e); reflexivity.
Qed.

Lemma _set_parameter_outcome (self : Toptica.TopticaDLCPro C) (c c' : C) (p : string)
      (v : value) (r : result unit) :
  Toptica.client self = Some c ->
  sdk_set c p v = (c', r) ->
  Toptica._set_parameter p v self
  = (Toptica.set_client (Some c') [Toptica.CSet p v r] self,
     match r with
     | inr u => inr u
     | inl e => inl (surfaced (fun m => "Error setting parameter " ++ p ++ " to "
                                          ++ Toptica.py_str v ++ m)%string e)
     end).
Proof.
  intros Hc Hs. unfold Toptica._set_parameter, try_except, Toptica.client_set, surfaced.
  rewrite Hc, Hs. destruct r as [e|u]; [|reflexivity].
  destruct (is_decop e); reflexivity.
Qed.

(** [get_parameter] and [set_parameter] on an open connection make exactly one
    call to the client.  What the call returns is returned; when it raises the
    SDK's error, a [ValueError] that names the parameter (and the value, for a
    write) is raised in its place; any other exception is raised as it is. *)
Theorem parameter_access_outcome (self : Toptica.TopticaDLCPro C) (c : C) (p : string) (v : value) :
  Toptica.client self = Some c ->
  Toptica.get_parameter p self
  = (Toptica.set_client (Some (fst (sdk_get c p))) [Toptica.CGet p (snd (sdk_get c p))] self,
     match snd (sdk_get c p) with
     | inr x => inr x
     | inl e => inl (surfaced (fun m => "Error retrieving parameter " ++ p ++ m)%string e)
     end)
  /\ Toptica.set_parameter p v self
     = (Toptica.set_client (Some (fst (sdk_set c p v)))
          [Toptica.CSet p v (snd (sdk_set c p v))] self,
        match snd (sdk_set c p v) with
        | inr u => inr u
        | inl e => inl (surfaced (fun m => "Error setting parameter " ++ p ++ " to "
                                             ++ Toptica.py_str v ++ m)%string e)
        end).
Proof.
  intros Hc. split.
  - apply _get_parameter_outcome with (c := c); [exact Hc | apply surjective_pairing].
  - apply _set_parameter_outcome with (c := c); [exact Hc | apply surjective_pairing].
Qed.

(** [emission] takes a [bool] and nothing else: any other value raises
    [ValueError] before the connection is even looked at, so the instrument
    is left as it was, open or closed; a [bool] on an open connection is
    written by one call. *)
Theorem emission_set_bool_only (self : Toptica.TopticaDLCPro C) :
  (forall q, rejects (Toptica.emission_set (VNum q)) self
                     (ValueError "Emission must be True or False"))
  /\ (forall s, rejects (Toptica.emission_set (VStr s)) self
                        (ValueError "Emission must be True or False"))
  /\ (forall b c c',
         Toptica.client self = Some c ->
         sdk_set c "emission" (VBool b) = (c', inr tt) ->
         Toptica.emission_set (VBool b) self
         = (Toptica.set_client (Some c') [Toptica.CSet "emission" (VBool b) (inr tt)] self,
            inr tt)).
Proof.
  split; [|split].
  - intros q. reflexivity.
  - intros s. reflexivity.
  - intros b c c' Hc Hs. unfold Toptica.emission_set.
    rewrite (_set_parameter_outcome self "emission" (VBool b) Hc Hs). reflexivity.
Qed.

End Toptica_properties.

(** ** Toptica DLC Pro: setters that check a range *)

(** A number is inside [[lo, hi]] exactly when the comparison of the setters
    lets it through. *)
Lemma inside_numbers (q lo hi : Q) :
  (lo <= q /\ q <= hi)%Q <-> Toptica.outside (VNum q) (VNum lo) (VNum hi) = inr false.
Proof.
  unfold Toptica.outside, Toptica.py_lt, Toptica.num_of. split.
  - intros [Hl Hh].
    assert (El : Toptica.Qltb q lo = false).
    { destruct (Toptica.Qltb q lo) eqn:E; [|reflexivity].
      apply Qltb_lt in E. exfalso. exact (Qlt_not_le _ _ E Hl). }
    assert (Eh : Toptica.Qltb hi q = false).
    { destruct (Toptica.Qltb hi q) eqn:E; [|reflexivity].
      apply Qltb_lt in E. exfalso. exact (Qlt_not_le _ _ E Hh). }
    rewrite El, Eh. reflexivity.
  - destruct (Toptica.Qltb q lo) eqn:El; [discriminate|].
    intros Hh. assert (Eh : Toptica.Qltb hi q = false) by congruence. split.
    + apply Qnot_lt_le. intro Hlt. apply Qltb_lt in Hlt. congruence.
    + apply Qnot_lt_le. intro Hlt. apply Qltb_lt in Hlt. congruence.
Qed.

Section Toptica_setters.
Context {C : Type} `{Session C} `{Host}.


Lemma checked_set_inside (lo hi : M (Toptica.TopticaDLCPro C) value)
      (msg : value -> value -> string) (target : string) (q l h : Q)
      (self s1 s2 : Toptica.TopticaDLCPro C) :
  lo self = (s1, inr (VNum l)) ->
  hi s1 = (s2, inr (VNum h)) ->
  (l <= q /\ q <= h)%Q ->
  Toptica.checked_set lo hi msg target (VNum q) self
  = Toptica._set_parameter target (VNum q) s2.
Proof.
  intros Hlo Hhi Hin. apply inside_numbers in Hin.
  unfold Toptica.checked_set, bind. rewrite Hlo, Hhi, Hin. reflexivity.
Qed.

End Toptica_setters.


(** A wavelength inside the reported limits, and a TA current between 0 and
    the reported limit, is written: the client sees the reads of the limits
    and then exactly one [set], of the value given to the parameter of the
    setpoint; when the [set] returns, so does the setter. *)
Theorem in_range_is_written_once :
  (forall (C : Type) (S : Session C) (H : Host) (self : Toptica.TopticaDLCPro C)
          (c c1 c2 c3 : C) (q lo hi : Q),
      Toptica.client self = Some c ->
      Toptica.laser_type self = Some "CTL" ->
      sdk_get c "laser1:ctl:wavelength-min" = (c1, inr (VNum lo)) ->
      sdk_get c1 "laser1:ctl:wavelength-max" = (c2, inr (VNum hi)) ->
      (lo <= q /\ q <= hi)%Q ->
      sdk_set c2 "laser1:ctl:wavelength-set" (VNum q) = (c3, inr tt) ->
      exists self',
        Toptica.wavelength_set (VNum q) self = (self', inr tt)
        /\ Toptica.calls self'
           = Toptica.calls self
             ++ [Toptica.CGet "laser1:ctl:wavelength-min" (inr (VNum lo));
                 Toptica.CGet "laser1:ctl:wavelength-max" (inr (VNum hi));
                 Toptica.CSet "laser1:ctl:wavelength-set" (VNum q) (inr tt)])
  /\ (forall (C : Type) (S : Session C) (H : Host) (self : Toptica.TopticaDLCPro C)
             (c c1 c2 : C) (q hi : Q),
         Toptica.client self = Some c ->
         Toptica.laser_type self = Some "TA" ->
         sdk_get c "ampcc1:channel1:current-clip-limit" = (c1, inr (VNum hi)) ->
         (0 <= q /\ q <= hi)%Q ->
         sdk_set c1 "ampcc1:channel1:current-set" (VNum q) = (c2, inr tt) ->
         exists self',
           Toptica.ta_current_set (VNum q) self = (self', inr tt)
           /\ Toptica.calls self'
              = Toptica.calls self
                ++ [Toptica.CGet "ampcc1:channel1:current-clip-limit" (inr (VNum hi));
                    Toptica.CSet "ampcc1:channel1:current-set" (VNum q) (inr tt)]).
Proof.
  split.
  - intros C S H self c c1 c2 c3 q lo hi Hc Ht Hlo Hhi Hin Hset.
    unfold Toptica.wavelength_set, bind. rewrite (only_for_match self Ht).
    erewrite checked_set_inside;
      [| apply (_get_parameter_returns self "laser1:ctl:wavelength-min" Hc Hlo)
       | apply _get_parameter_returns with (c := c1); [reflexivity | exact Hhi]
       | exact Hin].
    erewrite _set_parameter_outcome; [| reflexivity | exact Hset].
    eexists. split; [reflexivity|].
    cbn [Toptica.calls Toptica.set_client]. rewrite <- !app_assoc. reflexivity.
  - intros C S H self c c1 c2 q hi Hc Ht Hhi Hin Hset.
    unfold Toptica.ta_current_set, bind. rewrite (only_for_match self Ht).
    erewrite checked_set_inside;
      [| reflexivity
       | apply (_get_parameter_returns self "ampcc1:channel1:current-clip-limit" Hc Hhi)
       | exact Hin].
    erewrite _set_parameter_outcome; [| reflexivity | exact Hset].
    eexists. split; [reflexivity|].
    cbn [Toptica.calls Toptica.set_client]. rewrite <- !app_assoc. reflexivity.
Qed.

(** ** Toptica DLC Pro: construction *)

Lemma detect_range (s : string) :
  Toptica.detect s = "CTL" \/ Toptica.detect s = "TA" \/ Toptica.detect s = "Unknown".
Proof.
  unfold Toptica.detect. destruct (String.eqb s "CTL"); [auto|].
  destruct (contains "BoosTApro" s); auto.
Qed.

Section Toptica_construction.
Context {C : Type} `{Session C}.


(** A construction that succeeds has opened the connection and asked for the
    type once, in that order, and nothing else; the handle is kept, the type
    recorded is one of CTL, TA and Unknown, and the name is the one given,
    or the default followed by the type when none was given. *)
Theorem init_success (ip : string) (name0 : option string) (conn : C)
        (self : Toptica.TopticaDLCPro C) :
  Toptica.init ip name0 conn = (self, inr tt) ->
  exists c s,
    Toptica.client self = Some c
    /\ Toptica.calls self
       = [Toptica.COpen (inr tt); Toptica.CGet "laser1:type" (inr (VStr s))]
    /\ Toptica.laser_type self = Some (Toptica.detect s)
    /\ In (Toptica.detect s) ["CTL"; "TA"; "Unknown"]
    /\ Toptica.ip_address self = ip
    /\ Toptica.name self
       = match name0 with
         | None => ("Toptica DLC Pro " ++ Toptica.detect s)%string
         | Some EmptyString => "Toptica DLC Pro"
         | Some n => n
         end.
Proof.
  unfold Toptica.init, bind, Toptica._open_connection, try_except, bind, Toptica.client_get.
  destruct (sdk_open conn) as [c1 [e1|[]]]; cbn [Toptica.client Toptica.set_client];
    [discriminate|].
  destruct (sdk_get c1 "laser1:type") as [c2 [e2|[q|b|s]]];
    cbn [Toptica.client Toptica.set_client raise]; try discriminate.
  assert (Hin : In (Toptica.detect s) ["CTL"; "TA"; "Unknown"]).
  { simpl. destruct (detect_range s) as [-> | [-> | ->]]; auto. }
  destruct name0 as [[|a n]|]; intros Heq; injection Heq as Heq; subst self;
    exists c2, s; repeat split; exact Hin.
Qed.

End Toptica_construction.

(** ** Toptica DLC Pro: the candidate list and discovery *)

Section Toptica_candidates.
Context {C : Type}.

(** Discovery probes at least what the default list holds, the type and the
    emission among it, and six parameters of the controller besides; no
    candidate is listed twice. *)
Theorem enhanced_extends_default (self : Toptica.TopticaDLCPro C) :
  incl (Toptica._get_default_parameter_list self) (Toptica._get_enhanced_parameter_list self)
  /\ incl [ "laser1:type"; "emission"; "system:uptime"; "system:serial-number";
            "system:model"; "fw:version"; "cc1:board-temp"; "tc1:board-temp" ]
          (Toptica._get_enhanced_parameter_list self)
  /\ NoDup (Toptica._get_enhanced_parameter_list self).
Proof.
  split; [|split].
  - intros p Hp. unfold Toptica._get_enhanced_parameter_list.
    apply sorted_list_set_in, in_or_app. left. exact Hp.
  - intros p Hp. unfold Toptica._get_enhanced_parameter_list.
    apply sorted_list_set_in, in_or_app.
    simpl in Hp. destruct Hp as [<-|[<-|Hp]].
    + left. unfold Toptica._get_default_parameter_list.
      destruct (Toptica.is_type "CTL" self); [|destruct (Toptica.is_type "TA" self)];
        simpl; tauto.
    + left. unfold Toptica._get_default_parameter_list.
      destruct (Toptica.is_type "CTL" self); [|destruct (Toptica.is_type "TA" self)];
        simpl; tauto.
    + right. apply in_or_app. left. simpl. tauto.
  - apply enhanced_NoDup.
Qed.

End Toptica_candidates.

Section Toptica_discovery_more.
Context {C : Type} `{Session C}.

Lemma probe_all_returned (cands : list string) :
  (forall c p, exists c' v, sdk_get c p = (c', inr v)) ->
  forall (avail : list string) (self : Toptica.TopticaDLCPro C) (c : C),
    Toptica.client self = Some c ->
    snd (Toptica.probe cands avail self) = inr (avail ++ cands).
Proof.
  intros Hok. induction cands as [|p cands IH]; intros avail self c Hc.
  - simpl. rewrite app_nil_r. reflexivity.
  - cbn [Toptica.probe]. unfold Toptica.client_get. rewrite Hc.
    destruct (Hok c p) as [c' [v Hg]]. rewrite Hg.
    rewrite (IH (avail ++ [p])
               (Toptica.set_client (Some c') [Toptica.CGet p (inr v)] self) c' eq_refl).
    rewrite <- app_assoc. reflexivity.
Qed.

Lemma probe_all_raised (cands : list string) :
  (forall c p, exists c' e, sdk_get c p = (c', inl e)) ->
  forall (avail : list string) (self : Toptica.TopticaDLCPro C) (c : C),
    Toptica.client self = Some c ->
    snd (Toptica.probe cands avail self) = inr avail.
Proof.
  intros Hno. induction cands as [|p cands IH]; intros avail self c Hc.
  - reflexivity.
  - cbn [Toptica.probe]. unfold Toptica.client_get. rewrite Hc.
    destruct (Hno c p) as [c' [e Hg]]. rewrite Hg.
    destruct (is_decop e);
      apply (IH avail (Toptica.set_client (Some c') [Toptica.CGet p (inl e)] self) c' eq_refl).
Qed.

(** The two ends of discovery: a device that answers every read is found to
    support the whole candidate list, and one that answers none is found to
    support nothing; in neither case is anything raised. *)
Theorem discovery_extremes (self : Toptica.TopticaDLCPro C) (c : C) :
  Toptica.client self = Some c ->
  ((forall c p, exists c' v, sdk_get c p = (c', inr v)) ->
   snd (Toptica.get_all_supported_parameters self)
   = inr (Toptica._get_enhanced_parameter_list self))
  /\ ((forall c p, exists c' e, sdk_get c p = (c', inl e)) ->
      snd (Toptica.get_all_supported_parameters self) = inr []).
Proof.
  intros Hc. split; intros Hall.
  - pose proof (probe_all_returned (Toptica._get_enhanced_parameter_list self) Hall [] self Hc)
      as Hp.
    unfold Toptica.get_all_supported_parameters, try_except, bind. rewrite Hc.
    destruct (Toptica.probe (Toptica._get_enhanced_parameter_list self) [] self) as [s' r].
    simpl in Hp. subst r. reflexivity.
  - pose proof (probe_all_raised (Toptica._get_enhanced_parameter_list self) Hall [] self Hc)
      as Hp.
    unfold Toptica.get_all_supported_parameters, try_except, bind. rewrite Hc.
    destruct (Toptica.probe (Toptica._get_enhanced_parameter_list self) [] self) as [s' r].
    simpl in Hp. subst r. reflexivity.
Qed.

(** What discovery returns is drawn from the candidates and holds no name
    twice; it only reads: nothing is written, and the type, the address and
    the name of the instrument stay, as does the open handle. *)
Theorem discovery_only_reads (self : Toptica.TopticaDLCPro C) (c : C) :
  Toptica.client self = Some c ->
  exists self' l,
    Toptica.get_all_supported_parameters self = (self', inr l)
    /\ incl l (Toptica._get_enhanced_parameter_list self)
    /\ NoDup l
    /\ Toptica.writes (Toptica.calls self') = Toptica.writes (Toptica.calls self)
    /\ same_identity self self'.
Proof.
  intros Hc. destruct (discovery_spec self Hc) as [self' [evs [Hr [Hcalls [Hp [Hw Hid]]]]]].
  exists self', (Toptica.accepted evs). split; [exact Hr|]. split.
  { intros p Hin. rewrite <- Hp. apply accepted_in_probed, Hin. }
  split.
  { apply accepted_NoDup. rewrite Hp. apply enhanced_NoDup. }
  split; [|exact Hid].
  rewrite Hcalls, writes_app, Hw. apply app_nil_r.
Qed.

End Toptica_discovery_more.

(** ** Toptica DLC Pro: reading all parameters, further *)

Lemma read_only_refl {C : Type} (self : Toptica.TopticaDLCPro C) : read_only self self.
Proof. repeat split. Qed.

Lemma read_only_trans {C : Type} (s1 s2 s3 : Toptica.TopticaDLCPro C) :
  read_only s1 s2 -> read_only s2 s3 -> read_only s1 s3.
Proof.
  intros [Hw1 [Ht1 [Hi1 Hn1]]] [Hw2 [Ht2 [Hi2 Hn2]]]. repeat split; congruence.
Qed.

Section Toptica_reading.
Context {C : Type} `{Session C} `{Host}.

Lemma client_get_read_only (p : string) (self : Toptica.TopticaDLCPro C) :
  read_only self (fst (Toptica.client_get p self)).
Proof.
  unfold Toptica.client_get. destruct (Toptica.client self) as [c|]; [|apply read_only_refl].
  destruct (sdk_get c p) as [c' r]. repeat split.
  cbn [fst Toptica.calls Toptica.set_client]. rewrite writes_app. apply app_nil_r.
Qed.

Lemma probe_read_only (cands : list string) :
  forall avail (self : Toptica.TopticaDLCPro C),
    read_only self (fst (Toptica.probe cands avail self)).
Proof.
  induction cands as [|p cands IH]; intros avail self; [apply read_only_refl|].
  cbn [Toptica.probe]. pose proof (client_get_read_only p self) as Hstep.
  destruct (Toptica.client_get p self) as [s1 [e|v]]; cbn [fst] in Hstep.
  - destruct (is_decop e); eapply read_only_trans; [exact Hstep | apply IH | exact Hstep | apply IH].
  - eapply read_only_trans; [exact Hstep | apply IH].
Qed.

Lemma retrieve_read_only (names : list string) :
  forall d (self : Toptica.TopticaDLCPro C),
    read_only self (fst (Toptica.retrieve names d self)).
Proof.
  induction names as [|p names IH]; intros d self; [apply read_only_refl|].
  cbn [Toptica.retrieve]. pose proof (client_get_read_only p self) as Hstep.
  destruct (Toptica.client_get p self) as [s1 [e|v]]; cbn [fst] in Hstep.
  - destruct (is_decop e); [|exact Hstep].
    eapply read_only_trans; [exact Hstep | apply IH].
  - eapply read_only_trans; [exact Hstep | apply IH].
Qed.

Lemma discovery_read_only (self : Toptica.TopticaDLCPro C) :
  read_only self (fst (Toptica.get_all_supported_parameters self)).
Proof.
  unfold Toptica.get_all_supported_parameters, try_except, bind.
  destruct (Toptica.client self); [|apply read_only_refl].
  pose proof (probe_read_only (Toptica._get_enhanced_parameter_list self) [] self) as Hp.
  destruct (Toptica.probe (Toptica._get_enhanced_parameter_list self) [] self) as [s1 [e|l]];
    exact Hp.
Qed.

Lemma parameter_names_read_only (dyn : bool) (self : Toptica.TopticaDLCPro C) :
  read_only self (fst (Toptica.parameter_names dyn self)).
Proof.
  unfold Toptica.parameter_names, try_except. destruct dyn; [|apply read_only_refl].
  pose proof (discovery_read_only self) as Hd.
  destruct (Toptica.get_all_supported_parameters self) as [s1 [e|l]]; exact Hd.
Qed.

(** [get_all_parameters] only reads: whether it returns or raises, in either
    mode, no [set] reaches the client, and the type, the address and the name
    of the instrument are what they were. *)
Theorem get_all_parameters_only_reads (dyn : bool) (self : Toptica.TopticaDLCPro C) :
  read_only self (fst (Toptica.get_all_parameters dyn self)).
Proof.
  unfold Toptica.get_all_parameters, bind.
  destruct (Toptica.client self); [|apply read_only_refl].
  pose proof (parameter_names_read_only dyn self) as Hn.
  destruct (Toptica.parameter_names dyn self) as [s1 [e|names]]; cbn [fst] in Hn; [exact Hn|].
  pose proof (retrieve_read_only names [] s1) as Hr.
  destruct (Toptica.retrieve names [] s1) as [s2 [e|ps]]; cbn [fst] in Hr;
    eapply read_only_trans; eassumption.
Qed.

(** The metadata of a returned dictionary describes the instrument it was
    read from: its type, its address and its name, with the reading of the
    clock. *)
Theorem metadata_describes_instrument (dyn : bool) (self self2 : Toptica.TopticaDLCPro C)
        (d : dict Toptica.entry) :
  Toptica.get_all_parameters dyn self = (self2, inr d) ->
  exists m,
    dict_get "_metadata" d = Some (Toptica.EMeta m)
    /\ Toptica.meta_laser_type m = Toptica.laser_type self
    /\ Toptica.meta_ip_address m = Toptica.ip_address self
    /\ Toptica.instrument_name m = Toptica.name self
    /\ Toptica.timestamp m = now_isoformat.
Proof.
  intros Hg. pose proof (get_all_parameters_only_reads dyn self) as [_ [Ht [Hi Hn]]].
  rewrite Hg in Ht, Hi, Hn. cbn [fst] in Ht, Hi, Hn.
  revert Hg. unfold Toptica.get_all_parameters, bind.
  destruct (Toptica.client self); [|discriminate].
  destruct (Toptica.parameter_names dyn self) as [s1 [e|names]]; [discriminate|].
  destruct (Toptica.retrieve names [] s1) as [s2 [e|ps]]; [discriminate|].
  intros Heq. injection Heq as Hs Hd. subst s2 d.
  eexists. split; [apply dict_get_set_same|].
  cbn [Toptica.meta_laser_type Toptica.meta_ip_address Toptica.instrument_name
         Toptica.timestamp].
  repeat split; assumption.
Qed.

(** The reading loop stops at the first read that raises something other
    than the SDK's error. *)
Lemma retrieve_aborts (pre post : list string) (p : string) (e : exn) :
  is_decop e = false ->
  (forall c q e', In q pre -> snd (sdk_get c q) = inl e' -> is_decop e' = true) ->
  (forall c, snd (sdk_get c p) = inl e) ->
  forall (d : dict Toptica.entry) (self : Toptica.TopticaDLCPro C) (c : C),
    Toptica.client self = Some c ->
    exists self' evs,
      Toptica.retrieve (pre ++ p :: post) d self = (self', inl e)
      /\ Toptica.calls self' = Toptica.calls self ++ evs
      /\ Toptica.probed evs = pre ++ [p].
Proof.
  intros He Hpre Hp. induction pre as [|q pre IH]; intros d self c Hc.
  - cbn [app Toptica.retrieve]. unfold Toptica.client_get. rewrite Hc.
    pose proof (Hp c) as Hg. destruct (sdk_get c p) as [c' r]. cbn [snd] in Hg. subst r.
    rewrite He. eexists. exists [Toptica.CGet p (inl e)]. repeat split.
  - cbn [app Toptica.retrieve]. unfold Toptica.client_get. rewrite Hc.
    destruct (sdk_get c q) as [c' r] eqn:Hg.
    set (self1 := Toptica.set_client (Some c') [Toptica.CGet q r] self).
    assert (Hpre' : forall c q0 e', In q0 pre -> snd (sdk_get c q0) = inl e' -> is_decop e' = true).
    { intros c0 q0 e' Hin. apply Hpre. right. exact Hin. }
    assert (Hstep : forall d', exists self' evs,
               Toptica.retrieve (pre ++ p :: post) d' self1 = (self', inl e)
               /\ Toptica.calls self' = Toptica.calls self ++ Toptica.CGet q r :: evs
               /\ Toptica.probed (Toptica.CGet q r :: evs) = q :: pre ++ [p]).
    { intros d'. destruct (IH Hpre' d' self1 c' eq_refl) as [self' [evs [Hr [Hcalls Hprobed]]]].
      exists self', evs. split; [exact Hr|]. split.
      - rewrite Hcalls. subst self1. simpl. rewrite <- app_assoc. reflexivity.
      - simpl. rewrite Hprobed. reflexivity. }
    destruct r as [e'|v].
    + rewrite (Hpre c q e' (or_introl eq_refl)) by (rewrite Hg; reflexivity).
      destruct (Hstep (dict_set q (Toptica.EValue (VStr ("ERROR: " ++ exn_str e')%string)) d))
        as [self' [evs Hs]].
      exists self', (Toptica.CGet q (inl e') :: evs). exact Hs.
    + destruct (Hstep (dict_set q (Toptica.EValue v) d)) as [self' [evs Hs]].
      exists self', (Toptica.CGet q (inr v) :: evs). exact Hs.
Qed.

(** Where discovery skips a name whose read raises, the reading loop of
    [get_all_parameters] does so only for the SDK's error.  When the names
    of the default list before [p] raise nothing else and the read of [p]
    raises another exception, that exception leaves [get_all_parameters]: no
    dictionary is returned, and the names after [p] are not read. *)
Theorem get_all_parameters_aborts (self : Toptica.TopticaDLCPro C) (c : C)
        (pre post : list string) (p : string) (e : exn) :
  Toptica.client self = Some c ->
  Toptica._get_default_parameter_list self = pre ++ p :: post ->
  is_decop e = false ->
  (forall c q e', In q pre -> snd (sdk_get c q) = inl e' -> is_decop e' = true) ->
  (forall c, snd (sdk_get c p) = inl e) ->
  exists self' evs,
    Toptica.get_all_parameters false self = (self', inl e)
    /\ Toptica.calls self' = Toptica.calls self ++ evs
    /\ Toptica.probed evs = pre ++ [p].
Proof.
  intros Hc Hlist He Hpre Hp.
  destruct (@retrieve_aborts pre post p e He Hpre Hp [] self c Hc) as [self' [evs [Hr Hs]]].
  exists self', evs. split; [|exact Hs].
  unfold Toptica.get_all_parameters, bind, Toptica.parameter_names.
  rewrite Hc, Hlist, Hr. reflexivity.
Qed.

End Toptica_reading.

(** ** Toptica DLC Pro: what shutdown does to the device *)

Section Toptica_shutdown_calls.
Context {C : Type} `{Session C} `{Toptica.InstrumentBase C}.

(** On an open connection [shutdown] makes one call to the client, [close],
    and no other: in particular it writes nothing, so the emission is left
    as it is.  The [shutdown] of the base class is taken to return. *)
Theorem shutdown_only_closes (self : Toptica.TopticaDLCPro C) (c c' : C) (r : result unit) :
  base_shutdown_returns ->
  Toptica.client self = Some c ->
  sdk_close c = (c', r) ->
  exists s1,
    Toptica.shutdown self = (s1, inr tt)
    /\ Toptica.calls s1 = Toptica.calls self ++ [Toptica.CClose r]
    /\ Toptica.writes (Toptica.calls s1) = Toptica.writes (Toptica.calls self).
Proof.
  intros Hb Hc Hclose. unfold Toptica.shutdown. rewrite Hc, Hclose.
  destruct (Hb (Toptica.set_client None [] (Toptica.set_client (Some c') [Toptica.CClose r] self)))
    as [s1 [Hs [_ Hcalls]]].
  exists s1. split; [exact Hs|].
  assert (Hlog : Toptica.calls s1 = Toptica.calls self ++ [Toptica.CClose r]).
  { rewrite Hcalls. simpl. apply app_nil_r. }
  split; [exact Hlog|].
  rewrite Hlog, writes_app. simpl. apply app_nil_r.
Qed.

End Toptica_shutdown_calls.

(** ** Agiltron optical switch: construction and the channel *)

Section Agiltron_more.
Context {A : Type} `{Adapter A}.

(** A switch type other than 1x2 and 1x8 is refused with [ValueError], and
    nothing has reached the adapter by then. *)
Theorem init_rejects_unknown_type (a0 : A) (t : string) :
  t <> "1x2" -> t <> "1x8" ->
  exists msg,
    snd (Agiltron.init a0 t) = inl (ValueError msg)
    /\ Agiltron.log (fst (Agiltron.init a0 t)) = [].
Proof.
  intros H2 H8. unfold Agiltron.init, Agiltron.SWITCH_TYPES. cbn [existsb].
  apply String.eqb_neq in H2, H8. rewrite H2, H8. cbn [orb negb]. eexists. split; reflexivity.
Qed.

Ltac open_init_1x8 :=
  unfold Agiltron.init, Agiltron.SWITCH_TYPES;
  cbn [existsb String.eqb Ascii.eqb Bool.eqb orb andb negb];
  unfold Agiltron._get_id, try_except, bind, Agiltron.ask, bind, Agiltron.write, Agiltron.read;
  cbn [Agiltron.adapter Agiltron.set_adapter].

(** Building a 1x8 switch never fails, whatever the line does, and gives a
    switch with the channels 1 to 8.  It asks for the product name, reads the
    reply, asks for the serial number and reads the reply, in that order.
    When all four exchanges succeed, the identity is the pair of replies and
    the adapter is the one the last read left.  When one of them raises, it
    is the last thing that reached the adapter and both the product and the
    serial number are recorded as ["Unknown"], also the product name that
    had already been read. *)
Theorem init_1x8_identity (a0 : A) :
  snd (Agiltron.init a0 "1x8") = inr tt
  /\ Agiltron.switch_type (fst (Agiltron.init a0 "1x8")) = "1x8"
  /\ Agiltron.get_available_channels (fst (Agiltron.init a0 "1x8"))
     = [1; 2; 3; 4; 5; 6; 7; 8]%Z
  /\ (forall a1 a2 a3 a4 pn sn,
         adapter_write a0 "*PN" = (a1, inr tt) ->
         adapter_read a1 = (a2, inr pn) ->
         adapter_write a2 "*SN" = (a3, inr tt) ->
         adapter_read a3 = (a4, inr sn) ->
         Agiltron.id (fst (Agiltron.init a0 "1x8")) = [("product", pn); ("serial", sn)]
         /\ Agiltron.log (fst (Agiltron.init a0 "1x8"))
            = [WriteText "*PN"; Read; WriteText "*SN"; Read]
         /\ Agiltron.adapter (fst (Agiltron.init a0 "1x8")) = a4)
  /\ (forall a1 e,
         adapter_write a0 "*PN" = (a1, inl e) ->
         Agiltron.id (fst (Agiltron.init a0 "1x8"))
         = [("product", "Unknown"); ("serial", "Unknown")]
         /\ Agiltron.log (fst (Agiltron.init a0 "1x8")) = [WriteText "*PN"])
  /\ (forall a1 a2 e,
         adapter_write a0 "*PN" = (a1, inr tt) ->
         adapter_read a1 = (a2, inl e) ->
         Agiltron.id (fst (Agiltron.init a0 "1x8"))
         = [("product", "Unknown"); ("serial", "Unknown")]
         /\ Agiltron.log (fst (Agiltron.init a0 "1x8")) = [WriteText "*PN"; Read])
  /\ (forall a1 a2 a3 pn e,
         adapter_write a0 "*PN" = (a1, inr tt) ->
         adapter_read a1 = (a2, inr pn) ->
         adapter_write a2 "*SN" = (a3, inl e) ->
         Agiltron.id (fst (Agiltron.init a0 "1x8"))
         = [("product", "Unknown"); ("serial", "Unknown")]
         /\ Agiltron.log (fst (Agiltron.init a0 "1x8"))
            = [WriteText "*PN"; Read; WriteText "*SN"])
  /\ (forall a1 a2 a3 a4 pn e,
         adapter_write a0 "*PN" = (a1, inr tt) ->
         adapter_read a1 = (a2, inr pn) ->
         adapter_write a2 "*SN" = (a3, inr tt) ->
         adapter_read a3 = (a4, inl e) ->
         Agiltron.id (fst (Agiltron.init a0 "1x8"))
         = [("product", "Unknown"); ("serial", "Unknown")]
         /\ Agiltron.log (fst (Agiltron.init a0 "1x8"))
            = [WriteText "*PN"; Read; WriteText "*SN"; Read]).
Proof.
  split; [|split; [|split; [|split; [|split; [|split; [|split]]]]]].
  - open_init_1x8.
    destruct (adapter_write a0 "*PN") as [a1 [e1|[]]]; [reflexivity|].
    cbn [Agiltron.adapter Agiltron.set_adapter].
    destruct (adapter_read a1) as [a2 [e2|pn]]; [reflexivity|].
    cbn [Agiltron.adapter Agiltron.set_adapter].
    destruct (adapter_write a2 "*SN") as [a3 [e3|[]]]; [reflexivity|].
    cbn [Agiltron.adapter Agiltron.set_adapter].
    destruct (adapter_read a3) as [a4 [e4|sn]]; reflexivity.
  - open_init_1x8.
    destruct (adapter_write a0 "*PN") as [a1 [e1|[]]]; [reflexivity|].
    cbn [Agiltron.adapter Agiltron.set_adapter].
    destruct (adapter_read a1) as [a2 [e2|pn]]; [reflexivity|].
    cbn [Agiltron.adapter Agiltron.set_adapter].
    destruct (adapter_write a2 "*SN") as [a3 [e3|[]]]; [reflexivity|].
    cbn [Agiltron.adapter Agiltron.set_adapter].
    destruct (adapter_read a3) as [a4 [e4|sn]]; reflexivity.
  - open_init_1x8.
    destruct (adapter_write a0 "*PN") as [a1 [e1|[]]]; [reflexivity|].
    cbn [Agiltron.adapter Agiltron.set_adapter].
    destruct (adapter_read a1) as [a2 [e2|pn]]; [reflexivity|].
    cbn [Agiltron.adapter Agiltron.set_adapter].
    destruct (adapter_write a2 "*SN") as [a3 [e3|[]]]; [reflexivity|].
    cbn [Agiltron.adapter Agiltron.set_adapter].
    destruct (adapter_read a3) as [a4 [e4|sn]]; reflexivity.
  - intros a1 a2 a3 a4 pn sn H1 H2 H3 H4. open_init_1x8.
    rewrite H1. cbn [Agiltron.adapter Agiltron.set_adapter].
    rewrite H2. cbn [Agiltron.adapter Agiltron.set_adapter].
    rewrite H3. cbn [Agiltron.adapter Agiltron.set_adapter].
    rewrite H4. repeat split.
  - intros a1 e H1. open_init_1x8.
    rewrite H1. split; reflexivity.
  - intros a1 a2 e H1 H2. open_init_1x8.
    rewrite H1. cbn [Agiltron.adapter Agiltron.set_adapter].
    rewrite H2. split; reflexivity.
  - intros a1 a2 a3 pn e H1 H2 H3. open_init_1x8.
    rewrite H1. cbn [Agiltron.adapter Agiltron.set_adapter].
    rewrite H2. cbn [Agiltron.adapter Agiltron.set_adapter].
    rewrite H3. split; reflexivity.
  - intros a1 a2 a3 a4 pn e H1 H2 H3 H4. open_init_1x8.
    rewrite H1. cbn [Agiltron.adapter Agiltron.set_adapter].
    rewrite H2. cbn [Agiltron.adapter Agiltron.set_adapter].
    rewrite H3. cbn [Agiltron.adapter Agiltron.set_adapter].
    rewrite H4. split; reflexivity.
Qed.

Lemma in_list_of_range (v lo hi : Z) :
  In v (Agiltron.list_of_range (lo, hi)) <-> (lo <= v < hi)%Z.
Proof.
  unfold Agiltron.list_of_range. cbn [fst snd]. rewrite in_map_iff. split.
  - intros [n [<- Hn]]. apply in_seq in Hn. lia.
  - intros Hv. exists (Z.to_nat (v - lo)). split; [lia|]. apply in_seq. lia.
Qed.

(** The channels [get_available_channels] lists are exactly the values the
    setter lets through; any other value is refused with [ValueError] and
    the switch is left as it was. *)
Theorem available_channels_are_the_valid_ones (self : @Agiltron.AgiltronOpticalSwitch A)
        (value : Z) :
  (In value (Agiltron.get_available_channels self)
   <-> Agiltron.in_range value (Agiltron._channel_range self) = true)
  /\ (~ In value (Agiltron.get_available_channels self) ->
      exists msg, Agiltron.channel_set value self = (self, inl (ValueError msg))).
Proof.
  assert (Hiff : In value (Agiltron.get_available_channels self)
                 <-> Agiltron.in_range value (Agiltron._channel_range self) = true).
  { unfold Agiltron.get_available_channels, Agiltron.in_range.
    destruct (Agiltron._channel_range self) as [lo hi]. rewrite in_list_of_range.
    cbn [fst snd]. rewrite andb_true_iff, Z.leb_le, Z.ltb_lt. tauto. }
  split; [exact Hiff|].
  intros Hn. apply channel_set_rejects.
  destruct (Agiltron.in_range value (Agiltron._channel_range self)); [|reflexivity].
  exfalso. apply Hn, Hiff. reflexivity.
Qed.

Lemma in_range_1x2 (value : Z) :
  Agiltron.in_range value (1, 3)%Z = true -> value = 1%Z \/ value = 2%Z.
Proof.
  unfold Agiltron.in_range. cbn [fst snd]. rewrite andb_true_iff, Z.leb_le, Z.ltb_lt. lia.
Qed.

(** What [channel_set] does on a switch as built, for a value of its range:
    one write, text or frame by the type, and the value is remembered when
    the write returned and not when it raised. *)
Lemma channel_set_valid (self : @Agiltron.AgiltronOpticalSwitch A) (value : Z) :
  well_formed self ->
  Agiltron.in_range value (Agiltron._channel_range self) = true ->
  exists a r ev,
    (Agiltron.switch_type self = "1x8"
     /\ adapter_write (Agiltron.adapter self) ("*SW00" ++ Agiltron.str_int value) = (a, r)
     /\ ev = WriteText ("*SW00" ++ Agiltron.str_int value)
     \/ Agiltron.switch_type self = "1x2"
        /\ (exists msg, adapter_write_raw (Agiltron.adapter self) msg = (a, r)
                        /\ ev = WriteRaw msg))
    /\ Agiltron.channel_set value self
       = (match r with
          | inr _ => Agiltron.set_current_channel value (Agiltron.set_adapter a [ev] self)
          | inl _ => Agiltron.set_adapter a [ev] self
          end, r).
Proof.
  intros [[Ht Hr]|[Ht Hr]] Hin; unfold Agiltron.channel_set; rewrite Hin, Ht; rewrite Hr in Hin;
    cbn [negb String.eqb Ascii.eqb Bool.eqb andb].
  - assert (Hmsg : exists msg,
               (if (value =? 1)%Z then Some [x01; x12; x00; x01]%byte
                else if (value =? 2)%Z then Some [x01; x12; x00; x02]%byte else None)
               = Some msg).
    { destruct (in_range_1x2 value Hin) as [-> | ->]; eexists; reflexivity. }
    destruct Hmsg as [msg ->]. unfold bind, Agiltron.write_raw.
    destruct (adapter_write_raw (Agiltron.adapter self) msg) as [a r] eqn:Hw.
    exists a, r, (WriteRaw msg). split.
    + right. split; [reflexivity|]. exists msg.
      split; [first [exact Hw | reflexivity] | reflexivity].
    + destruct r as [e|[]]; reflexivity.
  - unfold bind, Agiltron.write.
    destruct (adapter_write (Agiltron.adapter self) ("*SW00" ++ Agiltron.str_int value))
      as [a r] eqn:Hw.
    exists a, r, (WriteText ("*SW00" ++ Agiltron.str_int value)). split.
    + left. split; [reflexivity|]. split; [first [exact Hw | reflexivity] | reflexivity].
    + destruct r as [e|[]]; reflexivity.
Qed.


(** A write that raises is not remembered: the exception leaves the setter
    and the getter still gives the channel it gave before. *)
Theorem failed_write_keeps_channel (self : @Agiltron.AgiltronOpticalSwitch A) (value : Z)
        (e : exn) :
  well_formed self ->
  Agiltron.in_range value (Agiltron._channel_range self) = true ->
  refuses_writes (Agiltron.adapter self) e ->
  exists self',
    Agiltron.channel_set value self = (self', inl e)
    /\ Agiltron.channel self' = Agiltron.channel self.
Proof.
  intros Hwf Hin [Hw Hraw].
  destruct (@channel_set_valid self value Hwf Hin) as [a [r [ev [Hcase Hset]]]].
  assert (Hr : r = inl e).
  { destruct Hcase as [[_ [Hwr _]]|[_ [msg [Hwr _]]]].
    - specialize (Hw ("*SW00" ++ Agiltron.str_int value)%string). rewrite Hwr in Hw. exact Hw.
    - specialize (Hraw msg). rewrite Hwr in Hraw. exact Hraw. }
  subst r. rewrite Hset. eexists. split; reflexivity.
Qed.

(** On a 1x8 switch a channel of the range is selected by one line of text,
    ["*SW00"] followed by the channel, one of ["*SW001"] to ["*SW008"];
    nothing is read back. *)
Theorem text_command_1x8 (self : @Agiltron.AgiltronOpticalSwitch A) (value : Z) :
  Agiltron.switch_type self = "1x8" ->
  Agiltron._channel_range self = (1, 9)%Z ->
  Agiltron.in_range value (1, 9)%Z = true ->
  exists cmd,
    Agiltron.log (fst (Agiltron.channel_set value self)) = Agiltron.log self ++ [WriteText cmd]
    /\ cmd = ("*SW00" ++ Agiltron.str_int value)%string
    /\ In cmd [ "*SW001"; "*SW002"; "*SW003"; "*SW004";
                "*SW005"; "*SW006"; "*SW007"; "*SW008" ].
Proof.
  intros Ht Hr Hin. exists ("*SW00" ++ Agiltron.str_int value)%string. split; [|split].
  - unfold Agiltron.channel_set. rewrite Hr, Hin, Ht.
    cbn [negb String.eqb Ascii.eqb Bool.eqb andb]. unfold bind, Agiltron.write.
    destruct (adapter_write (Agiltron.adapter self) _) as [a [e|[]]]; reflexivity.
  - reflexivity.
  - unfold Agiltron.in_range in Hin. cbn [fst snd] in Hin.
    apply andb_true_iff in Hin as [Hlo Hhi]. apply Z.leb_le in Hlo. apply Z.ltb_lt in Hhi.
    assert (Hv : (value = 1 \/ value = 2 \/ value = 3 \/ value = 4
                  \/ value = 5 \/ value = 6 \/ value = 7 \/ value = 8)%Z) by lia.
    destruct Hv as [-> | [-> | [-> | [-> | [-> | [-> | [-> | ->]]]]]]]; simpl; tauto.
Qed.

End Agiltron_more.

(** ** Siglent SDG1032X: further properties of the parsers *)

Lemma list_pair_ind {A : Type} (P : list A -> Prop) :
  P [] -> (forall x, P [x]) -> (forall x y l, P l -> P (x :: y :: l)) -> forall l, P l.
Proof.
  intros H0 H1 H2.
  assert (Hboth : forall l, P l /\ forall x, P (x :: l)).
  { induction l as [|y l [IHl IHx]]; split; auto. }
  intro l. apply Hboth.
Qed.

(** The loop gets through a run of tokens that starts at an even position
    exactly when the run has an even length; a last key with no value behind
    it is looked up past the end of the list. *)
Lemma settings_loop_parity (suf : list string) :
  forall (pre : list string) (d : dict string),
    Nat.even (List.length pre) = true ->
    if Nat.even (List.length suf)
    then exists d', SDG1032X.settings_loop (pre ++ suf)
                      (combine (seq (List.length pre) (List.length suf)) suf) d = inr d'
    else SDG1032X.settings_loop (pre ++ suf)
           (combine (seq (List.length pre) (List.length suf)) suf) d
         = inl (IndexError "list index out of range").
Proof.
  induction suf as [|x|x y suf IH] using list_pair_ind; intros pre d Hev.
  - simpl. eauto.
  - cbn [List.length Nat.even seq combine SDG1032X.settings_loop].
    assert (Hmod : List.length pre mod 2 = 0).
    { apply Nat.even_spec in Hev. destruct Hev as [m ->].
      rewrite Nat.mul_comm. apply Nat.Div0.mod_mul. }
    rewrite Hmod. cbn [Nat.eqb]. unfold index.
    assert (Hnone : nth_error (pre ++ [x]) (List.length pre + 1) = None).
    { apply nth_error_None. rewrite length_app. simpl. lia. }
    rewrite Hnone. reflexivity.
  - cbn [List.length Nat.even seq combine SDG1032X.settings_loop].
    assert (Hmod : List.length pre mod 2 = 0).
    { apply Nat.even_spec in Hev. destruct Hev as [m ->].
      rewrite Nat.mul_comm. apply Nat.Div0.mod_mul. }
    rewrite Hmod. cbn [Nat.eqb].
    replace (pre ++ x :: y :: suf) with ((pre ++ [x]) ++ y :: suf)
      by (rewrite <- app_assoc; reflexivity).
    replace (List.length pre + 1) with (List.length (pre ++ [x]))
      by (rewrite length_app; reflexivity).
    rewrite index_app_mid.
    assert (Hodd : S (List.length pre) mod 2 = 1).
    { apply Nat.even_spec in Hev. destruct Hev as [m ->].
      replace (S (2 * m)) with (1 + m * 2) by lia. rewrite Nat.Div0.mod_add. reflexivity. }
    rewrite Hodd. cbn [Nat.eqb].
    replace ((pre ++ [x]) ++ y :: suf) with ((pre ++ [x; y]) ++ suf)
      by (rewrite <- !app_assoc; reflexivity).
    replace (S (S (List.length pre))) with (List.length (pre ++ [x; y]))
      by (rewrite length_app; simpl; lia).
    apply IH. rewrite length_app. simpl.
    replace (List.length pre + 2) with (S (S (List.length pre))) by lia.
    rewrite Nat.even_succ_succ. exact Hev.
Qed.

Lemma slice_from_short (n : nat) (s : string) :
  String.length s <= n -> slice_from n s = EmptyString.
Proof.
  revert s. induction n as [|n IH]; intros [|c s] Hl; simpl in *; try reflexivity; try lia.
  apply IH. lia.
Qed.

(** [get_waveform_settings] has a result for a reply exactly when what
    follows the first eight characters splits into an even number of tokens;
    with an odd number it raises [IndexError].  A reply of eight characters
    or fewer leaves one empty token, so it always raises. *)
Theorem waveform_settings_parity (response : string) :
  (Nat.even (List.length (split "," (slice_from 8 response))) = true ->
   exists d, SDG1032X.waveform_settings_of_response response = inr d)
  /\ (Nat.even (List.length (split "," (slice_from 8 response))) = false ->
      SDG1032X.waveform_settings_of_response response
      = inl (IndexError "list index out of range"))
  /\ (String.length response <= 8 ->
      SDG1032X.waveform_settings_of_response response
      = inl (IndexError "list index out of range")).
Proof.
  pose proof (settings_loop_parity (split "," (slice_from 8 response)) [] [] eq_refl) as Hp.
  cbn [app List.length] in Hp.
  unfold SDG1032X.waveform_settings_of_response, enumerate.
  split; [|split].
  - intros He. rewrite He in Hp. exact Hp.
  - intros Ho. rewrite Ho in Hp. exact Hp.
  - intros Hl. rewrite (@slice_from_short 8 response Hl). reflexivity.
Qed.

Lemma dict_get_dict_set {V} (k k' : string) (v : V) (d : dict V) :
  dict_get k (dict_set k' v d) = if String.eqb k' k then Some v else dict_get k d.
Proof.
  destruct (String.eqb_spec k' k) as [->|Hne].
  - apply dict_get_set_same.
  - apply dict_get_set_other. exact Hne.
Qed.

Lemma dict_get_fold_set (kvs : list (string * string)) (k : string) :
  forall d : dict string,
    dict_get k (fold_left (fun d kv => dict_set (fst kv) (snd kv) d) kvs d)
    = fold_left (fun acc kv => if String.eqb (fst kv) k then Some (snd kv) else acc) kvs
                (dict_get k d).
Proof.
  induction kvs as [|[k' v] kvs IH]; intros d; [reflexivity|].
  cbn [fold_left fst snd]. rewrite IH, dict_get_dict_set. reflexivity.
Qed.

Lemma keys_dict_set_NoDup {V} (k : string) (v : V) (d : dict V) :
  NoDup (keys d) -> NoDup (keys (dict_set k v d)).
Proof.
  intros Hn. destruct (in_dec string_dec k (keys d)) as [Hin|Hnin].
  - rewrite keys_dict_set_in by exact Hin. exact Hn.
  - rewrite dict_set_fresh by exact Hnin. rewrite keys_app. simpl.
    eapply Permutation_NoDup; [apply Permutation_cons_append|].
    constructor; assumption.
Qed.

Lemma keys_fold_set_NoDup (kvs : list (string * string)) :
  forall d : dict string,
    NoDup (keys d) ->
    NoDup (keys (fold_left (fun d kv => dict_set (fst kv) (snd kv) d) kvs d)).
Proof.
  induction kvs as [|[k v] kvs IH]; intros d Hn; [exact Hn|].
  cbn [fold_left fst snd]. apply IH, keys_dict_set_NoDup, Hn.
Qed.

(** A key that the reply gives more than once is kept once, with the value
    of its last occurrence: whatever pairs follow an echo of eight
    characters, the mapping returned holds each key once and gives it the
    value of the last pair with that key. *)
Theorem waveform_settings_last_value (echo : string) (kvs : list (string * string)) :
  String.length echo = 8 ->
  kvs <> [] ->
  Forall (fun x => free_of "," x = true) (interleave kvs) ->
  exists d,
    SDG1032X.waveform_settings_of_response (echo ++ join "," (interleave kvs))%string = inr d
    /\ (forall k, dict_get k d = last_value k kvs)
    /\ NoDup (keys d).
Proof.
  intros Hlen Hne Hfree. unfold SDG1032X.waveform_settings_of_response.
  rewrite <- Hlen, slice_from_app.
  rewrite split_join; [| destruct kvs as [|[k v] kvs]; [congruence | discriminate] | exact Hfree].
  unfold enumerate.
  pose proof (settings_loop_pairs kvs [] [] eq_refl) as Hloop.
  simpl app in Hloop. cbn [List.length] in Hloop. rewrite Hloop.
  eexists. split; [reflexivity|]. split.
  - intros k. rewrite dict_get_fold_set. reflexivity.
  - apply keys_fold_set_NoDup. constructor.
Qed.

Lemma append_char_cancel (a b : string) (c : ascii) :
  (a ++ String c EmptyString)%string = (b ++ String c EmptyString)%string -> a = b.
Proof.
  revert b. induction a as [|x a IH]; intros [|y b] Heq; simpl in Heq.
  - reflexivity.
  - injection Heq as _ Heq. destruct b; discriminate.
  - injection Heq as _ Heq. destruct a; discriminate.
  - injection Heq as -> Heq. f_equal. apply IH. exact Heq.
Qed.

Section SDG1032X_query.
Context {A : Type} `{Adapter A}.

(** The query of a channel names that channel and no other: the command
    written is [":BSWV"], the id of the channel and ["?"], so channels with
    different ids write different commands.  The reply is read once after the
    command was taken; when the write raises, the exception is raised and no
    read is attempted. *)
Theorem query_names_the_channel (self : @SDG1032X.SDG1032XChannel A) :
  (forall a1 e,
      adapter_write (SDG1032X.adapter self) (":BSWV" ++ SDG1032X.id self ++ "?")%string
      = (a1, inl e) ->
      snd (SDG1032X.get_waveform_settings self) = inl e
      /\ SDG1032X.log (fst (SDG1032X.get_waveform_settings self))
         = SDG1032X.log self ++ [WriteText (":BSWV" ++ SDG1032X.id self ++ "?")%string])
  /\ (forall a1,
         adapter_write (SDG1032X.adapter self) (":BSWV" ++ SDG1032X.id self ++ "?")%string
         = (a1, inr tt) ->
         SDG1032X.log (fst (SDG1032X.get_waveform_settings self))
         = SDG1032X.log self
           ++ [WriteText (":BSWV" ++ SDG1032X.id self ++ "?")%string; Read])
  /\ (forall other : @SDG1032X.SDG1032XChannel A,
         SDG1032X.id other <> SDG1032X.id self ->
         (":BSWV" ++ SDG1032X.id other ++ "?")%string
         <> (":BSWV" ++ SDG1032X.id self ++ "?")%string).
Proof.
  split; [|split].
  - intros a1 e Hw. unfold SDG1032X.get_waveform_settings, bind, SDG1032X.ask.
    rewrite Hw. split; reflexivity.
  - intros a1 Hw. unfold SDG1032X.get_waveform_settings, bind, SDG1032X.ask.
    rewrite Hw. destruct (adapter_read a1) as [a2 [e|reply]]; cbn [fst SDG1032X.log];
      rewrite <- app_assoc; reflexivity.
  - intros other Hne Heq. apply Hne.
    simpl in Heq. injection Heq as Heq. apply append_char_cancel in Heq. exact Heq.
Qed.

End SDG1032X_query.

Lemma split_ws_blank_iff (s : string) : split_ws s = [] <-> blank s = true.
Proof.
  induction s as [|c s IH]; [simpl; tauto|].
  cbn [split_ws blank]. destruct (is_space c); cbn [andb].
  - exact IH.
  - split; [|discriminate]. destruct s as [|c' s]; [discriminate|].
    destruct (is_space c'); [discriminate|].
    destruct (split_ws (String c' s)); discriminate.
Qed.

Lemma index_last_nonempty {A} (l : list A) :
  l <> [] -> exists w, index_last l = inr w.
Proof.
  destruct l as [|x l]; [congruence|]. intros _. unfold index_last.
  apply index_in_bounds. simpl. lia.
Qed.

(** The bounds of the four [get_process_list] parsers.  Those of
    [output_polarity], [output_load] and [noise_addition_enabled] never
    raise: with too few tokens they give ["NOR"], ["HZ"] and [False], with
    enough tokens the token at index 6, 2 and 1.  The parser of
    [output_enabled] gives [False] on no token at all, raises [IndexError]
    when its first token is blank, and otherwise compares the last word of
    the first token with ["ON"]. *)
Theorem get_process_list_bounds (v : list string) :
  (SDG1032X.output_polarity_get_process_list v
   = inr (match nth_error v 6 with Some x => x | None => "NOR" end))
  /\ (SDG1032X.output_load_get_process_list v
      = inr (match nth_error v 2 with Some x => x | None => "HZ" end))
  /\ (SDG1032X.noise_addition_enabled_get_process_list v
      = inr (match nth_error v 1 with Some x => String.eqb x "ON" | None => false end))
  /\ (v = [] -> SDG1032X.output_enabled_get_process_list v = inr false)
  /\ (forall v0 rest, v = v0 :: rest ->
        (blank v0 = true ->
         SDG1032X.output_enabled_get_process_list v
         = inl (IndexError "list index out of range"))
        /\ (blank v0 = false ->
            exists w, index_last (split_ws v0) = inr w
                      /\ SDG1032X.output_enabled_get_process_list v
                         = inr (String.eqb w "ON"))).
Proof.
  unfold SDG1032X.output_polarity_get_process_list, SDG1032X.output_load_get_process_list,
    SDG1032X.noise_addition_enabled_get_process_list, index.
  split; [|split; [|split; [|split]]].
  - destruct (Nat.ltb_spec 6 (List.length v)) as [Hl|Hl].
    + destruct (nth_error v 6) eqn:E; [reflexivity|]. apply nth_error_None in E. lia.
    + assert (E : nth_error v 6 = None) by (apply nth_error_None; lia).
      rewrite E. reflexivity.
  - destruct (Nat.ltb_spec 2 (List.length v)) as [Hl|Hl].
    + destruct (nth_error v 2) eqn:E; [reflexivity|]. apply nth_error_None in E. lia.
    + assert (E : nth_error v 2 = None) by (apply nth_error_None; lia).
      rewrite E. reflexivity.
  - destruct (Nat.ltb_spec 1 (List.length v)) as [Hl|Hl].
    + destruct (nth_error v 1) eqn:E; [reflexivity|]. apply nth_error_None in E. lia.
    + assert (E : nth_error v 1 = None) by (apply nth_error_None; lia).
      rewrite E. reflexivity.
  - intros ->. reflexivity.
  - intros v0 rest ->. unfold SDG1032X.output_enabled_get_process_list, index.
    cbn [List.length Nat.ltb Nat.leb nth_error]. split.
    + intros Hb. apply split_ws_blank_iff in Hb. rewrite Hb. reflexivity.
    + intros Hb. assert (Hne : split_ws v0 <> []).
      { intro He. apply split_ws_blank_iff in He. congruence. }
      destruct (index_last_nonempty Hne) as [w Hw]. exists w. rewrite Hw. split; reflexivity.
Qed.

(** ** The further properties on test doubles *)

Lemma ta_only_gate_witness :
  rejects Toptica.ta_current (Double.laser Double.ctl_laser)
          (ValueError "This property is only available for TA lasers").
Proof.
  assert (Hne : Toptica.laser_type (Double.laser Double.ctl_laser) <> Some "TA")
    by (vm_compute; discriminate).
  pose proof (@ta_only_gate _ Double.table_client Double.fraction_host
                (Double.laser Double.ctl_laser) Hne) as Hg.
  unfold ta_only_rejected in Hg. destruct Hg as [Hr _]. exact Hr.
Defined.

Lemma parameter_access_outcome_witness :
  snd (Toptica.get_parameter "laser1:ctl:mode" (Double.laser Double.ctl_laser))
  = inl (ValueError "Error retrieving parameter laser1:ctl:mode: unknown parameter").
Proof.
  assert (Hc : Toptica.client (Double.laser Double.ctl_laser) = Some Double.ctl_laser)
    by (vm_compute; reflexivity).
  destruct (@parameter_access_outcome _ Double.table_client Double.fraction_host
              (Double.laser Double.ctl_laser) Double.ctl_laser "laser1:ctl:mode" (VNum 1) Hc)
    as [Hg _].
  rewrite Hg. vm_compute. reflexivity.
Defined.

Lemma emission_set_bool_only_witness :
  rejects (Toptica.emission_set (VNum 1)) (Double.laser Double.ctl_laser)
          (ValueError "Emission must be True or False").
Proof.
  destruct (@emission_set_bool_only _ Double.table_client Double.fraction_host
              (Double.laser Double.ctl_laser)) as [Hn _].
  apply Hn.
Defined.


Lemma in_range_is_written_once_witness :
  exists self',
    Toptica.wavelength_set (VNum 1555) (Double.laser Double.ctl_laser) = (self', inr tt)
    /\ Toptica.calls self'
       = Toptica.calls (Double.laser Double.ctl_laser)
         ++ [Toptica.CGet "laser1:ctl:wavelength-min" (inr (VNum 1500));
             Toptica.CGet "laser1:ctl:wavelength-max" (inr (VNum 1600));
             Toptica.CSet "laser1:ctl:wavelength-set" (VNum 1555) (inr tt)].
Proof.
  destruct in_range_is_written_once as [Hw _].
  apply (Hw _ Double.table_client Double.fraction_host (Double.laser Double.ctl_laser)
            Double.ctl_laser Double.ctl_laser Double.ctl_laser Double.ctl_laser
            1555%Q 1500%Q 1600%Q);
    try (vm_compute; reflexivity).
  split; unfold Qle; simpl; lia.
Defined.


Lemma init_success_witness :
  exists c s,
    Toptica.client (Double.laser Double.ctl_laser) = Some c
    /\ Toptica.laser_type (Double.laser Double.ctl_laser) = Some (Toptica.detect s).
Proof.
  assert (E : Toptica.init "192.168.1.44" None Double.ctl_laser
              = (Double.laser Double.ctl_laser, inr tt))
    by (vm_compute; reflexivity).
  destruct (@init_success _ Double.table_client "192.168.1.44" None Double.ctl_laser _ E)
    as [c [s [Hc [_ [Ht _]]]]].
  exists c, s. split; assumption.
Defined.

Lemma discovery_extremes_witness :
  snd (@Toptica.get_all_supported_parameters unit (Double.fixed_client Double.ta_laser)
         (Double.fixed_laser Double.ta_laser))
  = inr (Toptica._get_enhanced_parameter_list (Double.fixed_laser Double.ta_laser)).
Proof.
  assert (Hc : Toptica.client (Double.fixed_laser Double.ta_laser) = Some tt)
    by (vm_compute; reflexivity).
  destruct (@discovery_extremes unit (Double.fixed_client Double.ta_laser)
              (Double.fixed_laser Double.ta_laser) tt Hc) as [Hall _].
  apply Hall. intros c p. exists tt. simpl. unfold Double.ta_laser.
  repeat match goal with
         | |- context [String.eqb ?a ?b] => destruct (String.eqb a b)
         end; eexists; reflexivity.
Defined.

Lemma discovery_only_reads_witness :
  exists self' l,
    Toptica.get_all_supported_parameters (Double.laser Double.ctl_laser) = (self', inr l)
    /\ incl l (Toptica._get_enhanced_parameter_list (Double.laser Double.ctl_laser))
    /\ NoDup l
    /\ Toptica.writes (Toptica.calls self')
       = Toptica.writes (Toptica.calls (Double.laser Double.ctl_laser))
    /\ same_identity (Double.laser Double.ctl_laser) self'.
Proof.
  apply (@discovery_only_reads _ Double.table_client (Double.laser Double.ctl_laser)
           Double.ctl_laser).
  vm_compute. reflexivity.
Defined.

Lemma metadata_describes_instrument_witness :
  exists self2 d m,
    Toptica.get_all_parameters false (Double.laser Double.ctl_laser) = (self2, inr d)
    /\ dict_get "_metadata" d = Some (Toptica.EMeta m)
    /\ Toptica.meta_ip_address m = "192.168.1.44"
    /\ Toptica.instrument_name m = "Toptica DLC Pro CTL".
Proof.
  assert (E : exists self2 d,
             Toptica.get_all_parameters false (Double.laser Double.ctl_laser) = (self2, inr d)).
  { vm_compute. eexists. eexists. reflexivity. }
  destruct E as [self2 [d E]].
  destruct (@metadata_describes_instrument _ Double.table_client Double.fraction_host false
              (Double.laser Double.ctl_laser) self2 d E)
    as [m [Hm [_ [Hip [Hname _]]]]].
  exists self2, d, m. split; [exact E|]. split; [exact Hm|].
  split; [rewrite Hip | rewrite Hname]; vm_compute; reflexivity.
Defined.

Lemma get_all_parameters_aborts_witness :
  exists self' evs,
    @Toptica.get_all_parameters unit (Double.fixed_client Double.ctl_flaky)
      Double.fraction_host false (Double.fixed_laser Double.ctl_flaky)
    = (self', inl (TransportError "connection lost"))
    /\ Toptica.calls self' = Toptica.calls (Double.fixed_laser Double.ctl_flaky) ++ evs
    /\ Toptica.probed evs
       = ["laser1:ctl:wavelength-set"; "laser1:ctl:wavelength-act"] ++ ["laser1:scan:offset"].
Proof.
  apply (@get_all_parameters_aborts unit (Double.fixed_client Double.ctl_flaky)
           Double.fraction_host (Double.fixed_laser Double.ctl_flaky) tt
           ["laser1:ctl:wavelength-set"; "laser1:ctl:wavelength-act"]
           [ "laser1:ctl:wavelength-max"; "laser1:ctl:wavelength-min";
             "laser1:dl:pc:voltage-max"; "laser1:dl:pc:voltage-min";
             "laser1:dl:cc:current-set"; "laser1:dl:cc:current-act";
             "laser1:dl:cc:current-clip"; "laser1:type"; "emission" ]
           "laser1:scan:offset" (TransportError "connection lost")).
  - vm_compute. reflexivity.
  - vm_compute. reflexivity.
  - reflexivity.
  - intros c q e' [<-|[<-|[]]]; vm_compute; intros Hx; discriminate Hx.
  - intros c. vm_compute. reflexivity.
Defined.

Lemma shutdown_only_closes_witness :
  exists s1,
    Toptica.shutdown (Double.laser Double.ctl_laser) = (s1, inr tt)
    /\ Toptica.calls s1
       = Toptica.calls (Double.laser Double.ctl_laser) ++ [Toptica.CClose (inr tt)]
    /\ Toptica.writes (Toptica.calls s1)
       = Toptica.writes (Toptica.calls (Double.laser Double.ctl_laser)).
Proof.
  assert (Hb : @base_shutdown_returns (string -> result value) Double.quiet_base).
  { intros s. exists s. repeat split. }
  apply (@shutdown_only_closes _ Double.table_client Double.quiet_base
           (Double.laser Double.ctl_laser) Double.ctl_laser Double.ctl_laser (inr tt) Hb);
    vm_compute; reflexivity.
Defined.

Lemma init_rejects_unknown_type_witness :
  exists msg,
    snd (Agiltron.init ([] : list string) "1x4") = inl (ValueError msg)
    /\ Agiltron.log (fst (Agiltron.init ([] : list string) "1x4")) = [].
Proof.
  apply (@init_rejects_unknown_type _ Double.queue_adapter [] "1x4"); discriminate.
Defined.

Lemma available_channels_are_the_valid_ones_witness :
  In 2%Z (Agiltron.get_available_channels (Double.switch "1x2"))
  /\ exists msg,
      Agiltron.channel_set 9 (Double.switch "1x8")
      = (Double.switch "1x8", inl (ValueError msg)).
Proof.
  split.
  - destruct (@available_channels_are_the_valid_ones _ Double.queue_adapter
                (Double.switch "1x2") 2%Z) as [Hiff _].
    apply Hiff. vm_compute. reflexivity.
  - destruct (@available_channels_are_the_valid_ones _ Double.queue_adapter
                (Double.switch "1x8") 9%Z) as [Hiff Hrej].
    apply Hrej. intro Hin. apply Hiff in Hin. vm_compute in Hin. discriminate Hin.
Defined.


Lemma failed_write_keeps_channel_witness :
  exists self',
    @Agiltron.channel_set unit Double.broken_adapter 2 Double.broken_switch
    = (self', inl (TransportError "write failed"))
    /\ Agiltron.channel self' = Agiltron.channel Double.broken_switch.
Proof.
  apply (@failed_write_keeps_channel unit Double.broken_adapter Double.broken_switch 2%Z
           (TransportError "write failed")).
  - left. split; reflexivity.
  - reflexivity.
  - split; intros; reflexivity.
Defined.

Lemma text_command_1x8_witness :
  exists cmd,
    Agiltron.log (fst (Agiltron.channel_set 5 (Double.switch "1x8")))
    = Agiltron.log (Double.switch "1x8") ++ [WriteText cmd]
    /\ cmd = ("*SW00" ++ Agiltron.str_int 5)%string
    /\ In cmd [ "*SW001"; "*SW002"; "*SW003"; "*SW004";
                "*SW005"; "*SW006"; "*SW007"; "*SW008" ].
Proof.
  apply (@text_command_1x8 _ Double.queue_adapter (Double.switch "1x8") 5%Z);
    vm_compute; reflexivity.
Defined.

Lemma waveform_settings_parity_witness :
  (exists d, SDG1032X.waveform_settings_of_response "C1:BSWV WVTP,SINE" = inr d)
  /\ SDG1032X.waveform_settings_of_response "C1:BSWV WVTP,SINE,FRQ,1000HZ,AMP"
     = inl (IndexError "list index out of range").
Proof.
  split.
  - destruct (waveform_settings_parity "C1:BSWV WVTP,SINE") as [Heven _].
    apply Heven. vm_compute. reflexivity.
  - destruct (waveform_settings_parity "C1:BSWV WVTP,SINE,FRQ,1000HZ,AMP") as [_ [Hodd _]].
    apply Hodd. vm_compute. reflexivity.
Defined.

Lemma waveform_settings_last_value_witness :
  exists d,
    SDG1032X.waveform_settings_of_response "C1:BSWV FRQ,1,AMP,2,FRQ,3" = inr d
    /\ (forall k, dict_get k d = last_value k [("FRQ", "1"); ("AMP", "2"); ("FRQ", "3")])
    /\ NoDup (keys d).
Proof.
  apply (@waveform_settings_last_value "C1:BSWV " [("FRQ", "1"); ("AMP", "2"); ("FRQ", "3")]).
  - reflexivity.
  - discriminate.
  - repeat constructor.
Defined.

Example repeated_key_keeps_its_place :
  SDG1032X.waveform_settings_of_response "C1:BSWV FRQ,1,AMP,2,FRQ,3"
  = inr [("FRQ", "3"); ("AMP", "2")].
Proof. vm_compute. reflexivity. Qed.

Lemma query_names_the_channel_witness :
  SDG1032X.log (fst (SDG1032X.get_waveform_settings (Double.channel_1 "C1:BSWV WVTP,SINE")))
  = [WriteText ":BSWV1?"; Read].
Proof.
  destruct (@query_names_the_channel _ Double.queue_adapter
              (Double.channel_1 "C1:BSWV WVTP,SINE")) as [_ [Hok _]].
  apply (Hok ["C1:BSWV WVTP,SINE"]). reflexivity.
Defined.

Lemma get_process_list_bounds_witness :
  SDG1032X.output_enabled_get_process_list ["C1:OUTP ON"; "LOAD"; "HZ"] = inr true.
Proof.
  destruct (get_process_list_bounds ["C1:OUTP ON"; "LOAD"; "HZ"]) as [_ [_ [_ [_ Hen]]]].
  destruct (Hen "C1:OUTP ON" ["LOAD"; "HZ"] eq_refl) as [_ Hnb].
  destruct (Hnb eq_refl) as [w [Hw He]].
  rewrite He. vm_compute in Hw. injection Hw as <-. reflexivity.
Defined.

Lemma init_1x8_identity_witness :
  Agiltron.id (fst (Agiltron.init ["LB-1x8"; "SN0042"] "1x8"))
  = [("product", "LB-1x8"); ("serial", "SN0042")]
  /\ Agiltron.id (Double.switch "1x8") = [("product", "Unknown"); ("serial", "Unknown")].
Proof.
  split.
  - destruct (@init_1x8_identity _ Double.queue_adapter ["LB-1x8"; "SN0042"])
      as [_ [_ [_ [Hok _]]]].
    destruct (Hok ["LB-1x8"; "SN0042"] ["SN0042"] ["SN0042"] [] "LB-1x8" "SN0042"
                  eq_refl eq_refl eq_refl eq_refl) as [Hid _].
    exact Hid.
  - destruct (@init_1x8_identity _ Double.queue_adapter ([] : list string))
      as [_ [_ [_ [_ [_ [Hread _]]]]]].
    destruct (Hread [] [] (TransportError "timeout") eq_refl eq_refl) as [Hid _].
    exact Hid.
Defined.
